(** * livereload.server: a shallow embedding of [src/livereload/server.py]

    The development follows the source file top to bottom:

    - [Py]      the Python values, exceptions and the state-and-exception
                monad in which the effectful functions are written;
    - [OS]      the part of the operating system the module touches: a file
                system with directories and files, [os.path.dirname],
                [os.path.isdir], [os.makedirs], [open]/[write], and
                [shlex.split];
    - [Shell]   the function [shell] and the closure [run_shell] it returns;
    - [Inject]  [LiveScriptInjector.transform_first_chunk];
    - [Watch]   the watcher behind [self.watcher] ([livereload/watcher.py]
                and the reload handler are not part of this file; they are
                modelled from the specification);
    - [Server]  [BaseServer] and [Server]: [watch], [application],
                [serve], [get_web_handlers];
    - [Fixtures] concrete environments, worlds and servers;
    - [Aux]     definitions that only the statements use;
    - [ShellFacts], [InjectFacts], [WatchFacts], [ServerFacts]: the
                theorems, module by module;
    - [ShellMore], [InjectMore], [ServerMore]: further properties of the
                same functions.

    What is decided outside the program (the spawned process and the file
    system it leaves, the interpreter version) is a field of an environment
    record, and every theorem quantifies over it. *)

From Stdlib Require Import ZArith Lia Ascii String DecimalString DecimalZ.
From Stdlib.Strings Require Import Byte.
From stdpp Require Import base option list strings gmap.

Local Open Scope string_scope.

(* ===================================================================== *)
(** ** Python values, exceptions, and the effect monad                   *)
(* ===================================================================== *)

Module Py.

(** [OSError]: the two attributes the source reads or logs. *)
Record OSError := mkOSError { errno : Z; strerror : string }.

(** The constants of the module [errno]. *)
Definition ENOENT : Z := 2.
Definition EACCES : Z := 13.
Definition EEXIST : Z := 17.
Definition ENOTDIR : Z := 20.
Definition EISDIR : Z := 21.

Inductive Exn :=
| ExcOSError (e : OSError)
| ExcValueError (msg : string)
| ExcIndexError (msg : string)
| ExcUnicodeDecodeError
| ExcAttributeError (msg : string)
| ExcNotImplementedError.

(** What a statement sequence ends with: a value, or a raised
    exception. *)
Inductive Outcome (A : Type) :=
| Return (a : A)
| Raise (x : Exn).
Arguments Return {A} a.
Arguments Raise {A} x.

(** State-and-exception monad over a state [S]: a raise keeps the state
    reached so far. *)
Definition M (S A : Type) : Type := S -> Outcome A * S.

Definition ret {S A} (a : A) : M S A := fun s => (Return a, s).
Definition raise {S A} (x : Exn) : M S A := fun s => (Raise x, s).
Definition bind {S A B} (m : M S A) (k : A -> M S B) : M S B :=
  fun s => match m s with
           | (Return a, s') => k a s'
           | (Raise x, s') => (Raise x, s')
           end.
Definition get {S} : M S S := fun s => (Return s, s).
Definition modify {S} (f : S -> S) : M S unit := fun s => (Return tt, f s).

(** [when c m]: the statement [if c: m]. *)
Definition when {S} (c : bool) (m : M S unit) : M S unit :=
  if c then m else ret tt.

Definition raised {A} (o : Outcome A) : bool :=
  match o with Return _ => false | Raise _ => true end.

End Py.

Import Py.

Declare Scope py_scope.
Delimit Scope py_scope with py.
Notation "x <- m ;; k" := (bind m (fun x => k))
  (at level 100, m at next level, right associativity) : py_scope.
Notation "m ;;; k" := (bind m (fun _ => k))
  (at level 100, right associativity) : py_scope.
Local Open Scope py_scope.

(* ===================================================================== *)
(** ** The operating system as the module sees it                        *)
(* ===================================================================== *)

Module OS.

Definition chars (s : string) : list ascii := list_ascii_of_string s.
Definition text (l : list ascii) : string := string_of_list_ascii l.

Fixpoint drop_while {A} (f : A -> bool) (l : list A) : list A :=
  match l with
  | [] => []
  | x :: t => if f x then drop_while f t else l
  end.

(** [s.rstrip(c)] on a character list. *)
Definition rstrip {A} (f : A -> bool) (l : list A) : list A :=
  rev (drop_while f (rev l)).

Definition is_slash (c : ascii) : bool := bool_decide (c = "/"%char).

(** [posixpath.dirname]:
    [i = p.rfind('/') + 1; head = p[:i];]
    [if head and head != '/'*len(head): head = head.rstrip('/')]. *)
Definition dirname (p : string) : string :=
  let head := rstrip (fun c => negb (is_slash c)) (chars p) in
  match head with
  | [] => EmptyString
  | _ :: _ => if forallb is_slash head then text head
              else text (rstrip is_slash head)
  end.

(** A file system: the set of directories and the contents of the regular
    files, both keyed by path as the program spells it. *)
Record FS := mkFS { dirs : gset string; files : gmap string string }.

Definition isdir (p : string) (fs : FS) : bool := bool_decide (p ∈ dirs fs).
Definition isfile (p : string) (fs : FS) : bool :=
  bool_decide (is_Some (files fs !! p)).
Definition exists_ (p : string) (fs : FS) : bool := isdir p fs || isfile p fs.

(** The chain [dirname p, dirname (dirname p), ...] up to the root or the
    empty (relative) head. *)
Fixpoint ancestors_fuel (fuel : nat) (p : string) : list string :=
  match fuel with
  | O => []
  | S n =>
      let d := dirname p in
      if bool_decide (d = EmptyString) || bool_decide (d = p) then []
      else d :: ancestors_fuel n d
  end.
Definition ancestors (p : string) : list string :=
  ancestors_fuel (String.length p) p.

(** [os.makedirs(name)] with the default [exist_ok=False]: the leaf must
    not exist, no ancestor may be a regular file, and the leaf is created
    together with the missing intermediate directories. *)
Definition makedirs (name : string) (fs : FS) : OSError + FS :=
  if exists_ name fs then inl (mkOSError EEXIST "File exists")
  else if existsb (fun d => isfile d fs) (ancestors name)
       then inl (mkOSError ENOTDIR "Not a directory")
       else inr (mkFS (dirs fs ∪ {[ name ]} ∪ list_to_set (ancestors name))
                      (files fs)).

(** [os.devnull] *)
Definition devnull : string := "/dev/null".

(** The [mode] argument of [shell]: the two values its docstring
    defines, ['w'] (write) and ['a'] (append). *)
Inductive Mode := ModeW | ModeA.

(** [with open(path, mode) as f: f.write(data)].  Writes to the null
    device are discarded; opening fails on a directory and when the
    parent directory is missing. *)
Definition open_write (path : string) (mode : Mode) (data : string)
    (fs : FS) : OSError + FS :=
  if bool_decide (path = devnull) then inr fs
  else if isdir path fs then inl (mkOSError EISDIR "Is a directory")
  else
    let d := dirname path in
    if negb (bool_decide (d = EmptyString)) && negb (isdir d fs)
    then inl (mkOSError ENOENT "No such file or directory")
    else
      let old := default EmptyString (files fs !! path) in
      let new := match mode with
                 | ModeW => data
                 | ModeA => old +:+ data
                 end in
      inr (mkFS (dirs fs) (<[ path := new ]> (files fs))).

(** *** [shlex.split(s)]: POSIX mode, [whitespace_split], no comments *)

Inductive LexState :=
| StWhite                      (* state ' ' : between tokens *)
| StWord                       (* state 'a' : inside a token *)
| StQuote (q : ascii)          (* state q   : inside quotes opened by q *)
| StEscape (back : option ascii).
    (* state '\' : after a backslash; [back] is escapedstate, [None] for
       'a' and [Some q] for the quote q *)

Definition is_whitespace (c : ascii) : bool :=
  bool_decide (c = " "%char) || bool_decide (c = "009"%char)
  || bool_decide (c = "013"%char) || bool_decide (c = "010"%char).
Definition is_quote (c : ascii) : bool :=
  bool_decide (c = "'"%char) || bool_decide (c = "034"%char).
Definition is_escape (c : ascii) : bool := bool_decide (c = "\"%char).

Definition snoc (tok : string) (c : ascii) : string :=
  tok +:+ String c EmptyString.

(** One pass of [read_token] over the whole input; [tok] is the token
    under construction.  [inl msg] is [ValueError(msg)]. *)
Fixpoint read_tokens (st : LexState) (tok : string) (cs : list ascii)
    : string + list string :=
  match cs with
  | [] =>
      match st with
      | StWhite => inr []
      | StWord => inr [tok]
      | StQuote _ => inl "No closing quotation"
      | StEscape _ => inl "No escaped character"
      end
  | c :: cs' =>
      match st with
      | StWhite =>
          if is_whitespace c then read_tokens StWhite EmptyString cs'
          else if is_escape c then read_tokens (StEscape None) EmptyString cs'
          else if is_quote c then read_tokens (StQuote c) EmptyString cs'
          else read_tokens StWord (String c EmptyString) cs'
      | StQuote q =>
          if bool_decide (c = q) then read_tokens StWord tok cs'
          else if is_escape c && bool_decide (q = "034"%char)
               then read_tokens (StEscape (Some q)) tok cs'
               else read_tokens (StQuote q) (snoc tok c) cs'
      | StEscape back =>
          match back with
          | None => read_tokens StWord (snoc tok c) cs'
          | Some q =>
              let tok' := if negb (is_escape c) && negb (bool_decide (c = q))
                          then snoc tok "\"%char else tok in
              read_tokens (StQuote q) (snoc tok' c) cs'
          end
      | StWord =>
          if is_whitespace c then
            match read_tokens StWhite EmptyString cs' with
            | inl msg => inl msg
            | inr toks => inr (tok :: toks)
            end
          else if is_quote c then read_tokens (StQuote c) tok cs'
          else if is_escape c then read_tokens (StEscape None) tok cs'
          else read_tokens StWord (snoc tok c) cs'
      end
  end.

Definition shlex_split (s : string) : string + list string :=
  read_tokens StWhite EmptyString (chars s).

End OS.

Import OS.

(* ===================================================================== *)
(** ** [shell] and the task [run_shell] it returns                       *)
(* ===================================================================== *)

Module Shell.

(** The [cmd] argument: a string, a list or a tuple of strings. *)
Inductive Cmd :=
| CmdStr (s : string)
| CmdList (l : list string)
| CmdTuple (l : list string).

(** [isinstance(cmd, (list, tuple))] *)
Definition is_list_or_tuple (c : Cmd) : bool :=
  match c with
  | CmdStr _ => false
  | CmdList _ | CmdTuple _ => true
  end.

(** [cmd[0]]: the first element of a sequence, the first character of a
    string, [IndexError] when there is none. *)
Definition cmd_first (c : Cmd) : Exn + string :=
  match c with
  | CmdStr (String a _) => inr (String a EmptyString)
  | CmdStr EmptyString => inl (ExcIndexError "string index out of range")
  | CmdList (x :: _) => inr x
  | CmdList [] => inl (ExcIndexError "list index out of range")
  | CmdTuple (x :: _) => inr x
  | CmdTuple [] => inl (ExcIndexError "tuple index out of range")
  end.

(** What [logger.error] is given. *)
Inductive LogMsg :=
| MsgException (e : OSError)            (* logger.error(e) *)
| MsgBytes (b : string)                 (* logger.error(stderr) *)
| MsgFormat (fmt : string) (arg : string).  (* logger.error(fmt, arg) *)

Inductive LogRecord := LogError (m : LogMsg).

Definition hint_format : string := "maybe you haven't installed %s".

(** The state [shell] and [run_shell] act on. *)
Record World := mkWorld { fs : FS; log : list LogRecord }.

Definition logger_error (m : LogMsg) : M World unit :=
  modify (fun w => mkWorld (fs w) (log w ++ [LogError m])).

(** The record [r] is in the log of [w]. *)
Definition logged (r : LogRecord) (w : World) : Prop := r ∈ log w.

(** Lift a file-system operation; its [OSError] is raised. *)
Definition lift_fs (op : FS -> OSError + FS) : M World unit :=
  fun w => match op (fs w) with
           | inl e => (Raise (ExcOSError e), w)
           | inr fs' => (Return tt, mkWorld fs' (log w))
           end.

(** What [Popen(...)] followed by [p.communicate()] comes to.  A process
    that ran has produced its two streams and its return code, and has
    left the file system in some state of its own making. *)
Inductive PopenOutcome :=
| SpawnOSError (e : OSError)       (* Popen raised OSError *)
| SpawnRaises (x : Exn)            (* Popen raised something else *)
| Communicated (stdout stderr : string) (returncode : Z) (after : FS).

(** The parts decided outside the program.  [os_errno] tells whether the
    module [os] has the attribute [errno]: it has in Python 2 and in
    Python 3 up to 3.6, and has not from Python 3.7 on. *)
Record Env := mkEnv {
  Popen : Cmd -> option string -> bool -> FS -> PopenOutcome;
  PY3 : bool;                                  (* six.PY3 *)
  decode : string -> option string;            (* bytes.decode() *)
  os_errno : bool                              (* hasattr(os, 'errno') *)
}.

(** The free variables of the closure [run_shell]. *)
Record Closure := mkClosure {
  cmd : Cmd;
  output : string;
  mode : Mode;
  cwd : option string;
  use_shell : bool
}.

(** [not output]: [None] and the empty string are falsy. *)
Definition falsy (o : option string) : bool :=
  match o with
  | None => true
  | Some s => bool_decide (s = EmptyString)
  end.

(** [def shell(cmd, output=None, mode='w', cwd=None, shell=False)]:
    everything before [def run_shell], returning the closure. *)
Definition shell (cmd : Cmd) (output : option string) (mode : Mode)
    (cwd : option string) (sh : bool) : M World Closure :=
  output' <-
    (if falsy output then ret devnull
     else
       let out := default EmptyString output in
       let folder := dirname out in
       w <- get ;;
       when (negb (bool_decide (folder = EmptyString))
             && negb (isdir folder (fs w)))
            (lift_fs (makedirs folder)) ;;;
       ret out) ;;
  cmd' <-
    (if negb (is_list_or_tuple cmd) && negb sh then
       match cmd with
       | CmdStr s =>
           match shlex_split s with
           | inl msg => raise (ExcValueError msg)
           | inr toks => ret (CmdList toks)
           end
       | _ => ret cmd
       end
     else ret cmd) ;;
  ret (mkClosure cmd' output' mode cwd sh).

(** What [run_shell()] returns: the exception, the standard error
    bytes, or [None] when it falls off the end. *)
Inductive TaskResult :=
| ResNone
| ResException (e : OSError)
| ResStderr (b : string).

Definition failed (r : TaskResult) : bool :=
  match r with ResNone => false | _ => true end.

Section run_shell.
Context (E : Env).

(** [os.errno.ENOENT]: [AttributeError] where [os] has no [errno]. *)
Definition os_errno_ENOENT : M World Z :=
  if os_errno E then ret ENOENT
  else raise (ExcAttributeError "module 'os' has no attribute 'errno'").

(** The process has run: the file system is the one it left. *)
Definition process_left (after : FS) : M World unit :=
  modify (fun w => mkWorld after (log w)).

(** [def run_shell()] *)
Definition run_shell (c : Closure) : M World TaskResult :=
  w <- get ;;
  match Popen E (cmd c) (cwd c) (use_shell c) (fs w) with
  | SpawnOSError e =>
      logger_error (MsgException e) ;;;
      enoent <- os_errno_ENOENT ;;
      when (bool_decide (errno e = enoent))
           (match cmd_first (cmd c) with
            | inl x => raise x
            | inr c0 => logger_error (MsgFormat hint_format c0)
            end) ;;;
      ret (ResException e)
  | SpawnRaises x => raise x
  | Communicated stdout stderr _ after =>
      process_left after ;;;
      if negb (bool_decide (stderr = EmptyString)) then
        logger_error (MsgBytes stderr) ;;;
        ret (ResStderr stderr)
      else
        stdout' <-
          (if PY3 E then
             match decode E stdout with
             | Some s => ret s
             | None => raise ExcUnicodeDecodeError
             end
           else ret stdout) ;;
        lift_fs (open_write (output c) (mode c) stdout') ;;;
        ret ResNone
  end.

(** [shell(...)()] : build the task and invoke it at once. *)
Definition shell_then_run cmd output mode cwd sh : M World TaskResult :=
  c <- shell cmd output mode cwd sh ;;
  run_shell c.

End run_shell.

End Shell.

(* ===================================================================== *)
(** ** [LiveScriptInjector]                                              *)
(* ===================================================================== *)

Module Inject.

Abbreviation bytes := (list byte).

#[global] Instance byte_eq_dec : EqDecision byte.
Proof.
  intros x y. destruct (Byte.eqb x y) eqn:E.
  - left. apply Byte.byte_dec_bl, E.
  - right. apply Byte.eqb_false, E.
Defined.

Section sequences.
Context {A : Type} `{EqDecision A}.

(** [l.startswith(p)] *)
Fixpoint startswith (p l : list A) : bool :=
  match p, l with
  | [], _ => true
  | _ :: _, [] => false
  | x :: p', y :: l' => bool_decide (x = y) && startswith p' l'
  end.

(** [sub in l] *)
Fixpoint contains (sub l : list A) : bool :=
  startswith sub l
  || match l with
     | [] => false
     | _ :: t => contains sub t
     end.

(** [l.replace(old, new)] for a non-empty [old]: scan left to right;
    at an occurrence emit [new] and skip the rest of it ([skip] counts
    the elements still to pass over). *)
Fixpoint replace_from (skip : nat) (old new l : list A) : list A :=
  match l with
  | [] => []
  | c :: t =>
      match skip with
      | S k => replace_from k old new t
      | O => if startswith old l
             then new ++ replace_from (length old - 1) old new t
             else c :: replace_from 0 old new t
      end
  end.

Definition replace (old new l : list A) : list A := replace_from 0 old new l.

(** [sep.join(segs)] *)
Fixpoint join (sep : list A) (segs : list (list A)) : list A :=
  match segs with
  | [] => []
  | [s] => s
  | s :: rest => s ++ sep ++ join sep rest
  end.

End sequences.

(** [HEAD_END = b'</head>'] *)
Definition HEAD_END : bytes := list_byte_of_string "</head>".

(** A run of bytes free of the marker. *)
Definition clean (seg : bytes) : Prop := contains HEAD_END seg = false.

(** [int(s)] on a header value, as Python 2 reads a [str]: surrounding
    ASCII white space, an optional sign, ASCII decimal digits; anything
    else is [ValueError], here [None].  A value read here is read the same
    by every Python; Python 3 reads some more (an underscore between
    digits, the digits and spaces of other scripts). *)
Definition is_space (c : ascii) : bool :=
  is_whitespace c || bool_decide (c = "011"%char) || bool_decide (c = "012"%char).

Definition digit_of (c : ascii) : option Z :=
  let n := nat_of_ascii c in
  if (48 <=? n)%nat && (n <=? 57)%nat then Some (Z.of_nat (n - 48)) else None.

Fixpoint digits_value (acc : Z) (l : list ascii) : option Z :=
  match l with
  | [] => Some acc
  | c :: t =>
      match digit_of c with
      | Some d => digits_value (10 * acc + d) t
      | None => None
      end
  end.

Definition py_int (s : string) : option Z :=
  match rstrip is_space (drop_while is_space (chars s)) with
  | [] => None
  | c :: ds =>
      if bool_decide (c = "-"%char) then
        match ds with [] => None | _ => Z.opp <$> digits_value 0 ds end
      else if bool_decide (c = "+"%char) then
        match ds with [] => None | _ => digits_value 0 ds end
      else digits_value 0 (c :: ds)
  end.

(** [str(n)] *)
Definition py_str (n : Z) : string := NilZero.string_of_int (Z.to_int n).

Abbreviation Headers := (gmap string string).

(** [def transform_first_chunk(self, status_code, headers, chunk,
    finishing)], with [script] standing for [self.script]. *)
Definition transform_first_chunk (script : bytes) (status_code : Z)
    (headers : Headers) (chunk : bytes) (finishing : bool)
    : Outcome (Z * Headers * bytes) :=
  if contains HEAD_END chunk then
    let chunk' := replace HEAD_END (script ++ HEAD_END) chunk in
    match headers !! "Content-Length" with
    | Some v =>
        match py_int v with
        | Some n =>
            let v' := py_str (n + Z.of_nat (length script)) in
            Return (status_code, <[ "Content-Length" := v' ]> headers, chunk')
        | None => Raise (ExcValueError "invalid literal for int()")
        end
    | None => Return (status_code, headers, chunk')
    end
  else Return (status_code, headers, chunk).

End Inject.

(* ===================================================================== *)
(** ** The watcher and the reload broadcast                              *)
(* ===================================================================== *)

Module Watch.

Import Shell.

(** The [delay] argument of [watch]: [None], a number of time units, or
    the string ['forever']. *)
Inductive Delay :=
| DelayNone
| DelaySeconds (n : N)
| DelayForever.

(** A callable without parameters: whatever it does to the world, ending
    normally or with an exception. *)
Definition Callable : Type := M World unit.

(** A registered task: the closure [shell] returned, or a callable. *)
Inductive Task :=
| TaskShell (c : Closure)
| TaskCallable (f : Callable).

Record WatchEntry := mkEntry {
  pattern : string;
  task : option Task;
  delay : Delay
}.

(** Modelled from the spec: section 3, a delay of ['forever'] as opposed
    to immediate or a number of seconds. *)
Definition is_forever (e : WatchEntry) : bool :=
  match delay e with DelayForever => true | _ => false end.

(** The watcher object.  [_changes] is the list [serve] appends to.
    Modelled from the spec: the other two fields, which belong to
    livereload/watcher.py: the registry of entries of section 4.1 and the
    WatchedFileState of section 3, a fingerprint per path. *)
Record Watcher := mkWatcher {
  entries : list WatchEntry;
  _changes : list (string * Delay);
  file_states : gmap string N
}.

Definition empty_watcher : Watcher := mkWatcher [] [] ∅.


(** Modelled from the spec: what one polling cycle of section 4.3
    observes of the file system, the expansion of each pattern and the
    fingerprint of each path. *)
Record Snapshot := mkSnapshot {
  expand : string -> list string;
  fingerprint : string -> N
}.

(** Modelled from the spec: the change event of section 4.3, the changed
    paths and the aggregate delay. *)
Record ChangeEvent := mkEvent {
  changed_paths : list string;
  event_delay : N
}.

Section cycle.
Context (E : Env) (snap : Snapshot).

(** Modelled from the spec: the Compare step of section 4.3.  A path
    with no recorded state is a baseline, not a change. *)
Definition path_changed (st : gmap string N) (p : string) : bool :=
  match st !! p with
  | Some old => negb (N.eqb old (fingerprint snap p))
  | None => false
  end.

(** Modelled from the spec: the Scan step of section 4.3, every
    pattern expanded anew. *)
Definition scan (reg : list WatchEntry) : list string :=
  concat (map (fun e => expand snap (pattern e)) reg).

(** Modelled from the spec: the state kept per scanned path; a path
    that disappeared is dropped. *)
Definition record_states (paths : list string) : gmap string N :=
  list_to_map (map (fun p => (p, fingerprint snap p)) paths).

(** Modelled from the spec: an entry is triggered when a path its
    pattern expands to has changed. *)
Definition triggered (st : gmap string N) (e : WatchEntry) : bool :=
  existsb (path_changed st) (expand snap (pattern e)).

(** Modelled from the spec: the Accumulate step of section 4.3, the
    PendingChangeBatch of the cycle. *)
Definition batch (w : Watcher) : list WatchEntry :=
  List.filter (triggered (file_states w)) (entries w).

(** Modelled from the spec: the TaskRunner invoked by the watcher.  A
    failure (an error result or an exception) is contained; [true] is
    success. *)
Definition run_task (t : Task) : World -> bool * World :=
  fun w =>
    match t with
    | TaskShell c =>
        match run_shell E c w with
        | (Return r, w') => (negb (failed r), w')
        | (Raise _, w') => (false, w')
        end
    | TaskCallable f =>
        match f w with
        | (Return _, w') => (true, w')
        | (Raise _, w') => (false, w')
        end
    end.

(** Modelled from the spec: the Execute step of section 4.3, every
    entry of the batch that has a task, in order, each failure
    leaving the remaining entries to run. *)
Fixpoint execute (b : list WatchEntry) (w : World)
    : list (WatchEntry * bool) * World :=
  match b with
  | [] => ([], w)
  | e :: rest =>
      match task e with
      | None => execute rest w
      | Some t =>
          let '(ok, w') := run_task t w in
          let '(ran, w'') := execute rest w' in
          ((e, ok) :: ran, w'')
      end
  end.

(** Modelled from the spec: the numeric delay of an entry, 0 for an
    immediate one, none for ['forever']. *)
Definition numeric (d : Delay) : option N :=
  match d with
  | DelayNone => Some 0%N
  | DelaySeconds n => Some n
  | DelayForever => None
  end.

(** Modelled from the spec: the minimum numeric delay among the entries
    that are not ['forever']; [None] when there is no such entry. *)
Fixpoint min_delay (b : list WatchEntry) : option N :=
  match b with
  | [] => None
  | e :: rest =>
      match numeric (delay e), min_delay rest with
      | Some d, Some m => Some (N.min d m)
      | Some d, None => Some d
      | None, m => m
      end
  end.

(** Modelled from the spec: the Emit step of section 4.3. *)
Definition emit (w : Watcher) : option ChangeEvent :=
  match min_delay (batch w) with
  | Some d =>
      Some (mkEvent (List.filter (path_changed (file_states w))
                                 (scan (entries w))) d)
  | None => None
  end.

(** Modelled from the spec: what a cycle did, the tasks run with their
    results and the event emitted. *)
Record Report := mkReport {
  ran : list (WatchEntry * bool);
  event : option ChangeEvent
}.

(** Modelled from the spec: one polling cycle of section 4.3: tasks
    first, the event after. *)
Definition poll (wt : Watcher) (w : World) : Report * Watcher * World :=
  let '(r, w') := execute (batch wt) w in
  (mkReport r (emit wt),
   mkWatcher (entries wt) (_changes wt) (record_states (scan (entries wt))),
   w').

End cycle.

(** Modelled from the spec: the sessions of the ReloadBroadcaster of
    section 4.4 and the reload command pushed to the active ones. *)
Inductive SessionState := AwaitingHello | Active | Closed.

(** Modelled from the spec: the reload command of section 6. *)
Record ReloadCommand := mkReload {
  to_session : nat;
  reload_paths : list string;
  reload_delay : N
}.

(** Modelled from the spec: only [active] sessions receive commands. *)
Definition is_active (s : nat * SessionState) : bool :=
  match snd s with Active => true | _ => false end.

(** Modelled from the spec: section 4.4, a change event becomes one
    reload command per active session. *)
Definition broadcast (sessions : list (nat * SessionState))
    (ev : option ChangeEvent) : list ReloadCommand :=
  match ev with
  | None => []
  | Some e =>
      map (fun s => mkReload (fst s) (changed_paths e) (event_delay e))
          (List.filter is_active sessions)
  end.

End Watch.

(* ===================================================================== *)
(** ** [BaseServer] and [Server]                                         *)
(* ===================================================================== *)

Module Server.

Import Shell Watch Inject.

(** A WSGI application object, known by name. *)
Inductive WSGIApp := wsgi (name : string).

(** The request handler classes routes point at, with their
    initialisation dictionaries. *)
Inductive Handler :=
| LiveReloadHandler
| ForceReloadHandler
| LiveReloadJSHandler
| FallbackHandler (fallback : WSGIApp)
| StaticFileHandler (path : string) (default_filename : string).

Definition Route : Type := string * Handler.

(** [web.Application(handlers=..., debug=...)] and the transforms added
    to it; a transform is [ConfiguredTransform], known by its [script]. *)
Record Application := mkApplication {
  handlers : list Route;
  debug : option bool;
  transforms : list bytes
}.

(** An application after [listen(port, address=host)]. *)
Record Listener := mkListener {
  application_of : Application;
  port : Z;
  address : string
}.

Inductive Class := BaseServerClass | ServerClass.

(** The instance [self]: its class, [self.app] (an attribute only
    [Server.__init__] sets), [self.root], and the reference
    [self.watcher]. *)
Record Self := mkSelf {
  class : Class;
  app : option WSGIApp;
  root : option string;
  watcher : nat
}.

Inductive Thread := OpenerThread (url : string).

(** The process: the world of the shell tasks, the heap of watcher
    objects, the class attribute [LiveReloadHandler.watcher], the
    listening applications, standard output, the logger level, started
    threads, and whether the IOLoop was started. *)
Record Proc := mkProc {
  world : World;
  heap : gmap nat Watcher;
  LiveReloadHandler_watcher : option nat;
  listeners : list Listener;
  printed : list string;
  level_info : bool;
  threads : list Thread;
  ioloop_started : bool
}.

Definition set_heap (f : gmap nat Watcher -> gmap nat Watcher) (p : Proc)
    : Proc :=
  mkProc (world p) (f (heap p)) (LiveReloadHandler_watcher p) (listeners p)
         (printed p) (level_info p) (threads p) (ioloop_started p).
Definition set_handler_watcher (r : nat) (p : Proc) : Proc :=
  mkProc (world p) (heap p) (Some r) (listeners p)
         (printed p) (level_info p) (threads p) (ioloop_started p).
Definition add_listener (l : Listener) (p : Proc) : Proc :=
  mkProc (world p) (heap p) (LiveReloadHandler_watcher p) (listeners p ++ [l])
         (printed p) (level_info p) (threads p) (ioloop_started p).
Definition add_printed (s : string) (p : Proc) : Proc :=
  mkProc (world p) (heap p) (LiveReloadHandler_watcher p) (listeners p)
         (printed p ++ [s]) (level_info p) (threads p) (ioloop_started p).
Definition set_level_info (p : Proc) : Proc :=
  mkProc (world p) (heap p) (LiveReloadHandler_watcher p) (listeners p)
         (printed p) true (threads p) (ioloop_started p).
Definition add_thread (t : Thread) (p : Proc) : Proc :=
  mkProc (world p) (heap p) (LiveReloadHandler_watcher p) (listeners p)
         (printed p) (level_info p) (threads p ++ [t]) (ioloop_started p).
Definition set_ioloop_started (p : Proc) : Proc :=
  mkProc (world p) (heap p) (LiveReloadHandler_watcher p) (listeners p)
         (printed p) (level_info p) (threads p) true.


(** [BaseServer.__init__(self, watcher=None)] after [Server.__init__]
    set [self.app]: a missing watcher is created. *)
Definition init (cls : Class) (app : option WSGIApp) (watcher : option nat)
    : M Proc Self :=
  match watcher with
  | Some r => ret (mkSelf cls app None r)
  | None =>
      p <- get ;;
      let r := fresh (dom (heap p)) in
      modify (set_heap (insert r empty_watcher)) ;;;
      ret (mkSelf cls app None r)
  end.



(** [self.app] : [AttributeError] on a plain [BaseServer]. *)
Definition get_app (self : Self) : M Proc (option WSGIApp) :=
  match class self with
  | ServerClass => ret (app self)
  | BaseServerClass =>
      raise (ExcAttributeError "'BaseServer' object has no attribute 'app'")
  end.

(** [x or d] on an optional string. *)
Definition or_default (x : option string) (d : string) : string :=
  match x with
  | Some s => if bool_decide (s = EmptyString) then d else s
  | None => d
  end.

(** [def get_web_handlers(self)] : abstract in [BaseServer], defined in
    [Server]. *)
Definition get_web_handlers (self : Self) : M Proc (list Route) :=
  match class self with
  | BaseServerClass => raise ExcNotImplementedError
  | ServerClass =>
      match app self with
      | Some a => ret [(".*", FallbackHandler a)]
      | None =>
          ret [("/(.*)",
                StaticFileHandler (or_default (root self) ".") "index.html")]
      end
  end.

Definition live_handlers : list Route :=
  [("/livereload", LiveReloadHandler);
   ("/forcereload", ForceReloadHandler);
   ("/livereload.js", LiveReloadJSHandler)].

Definition dquote : string := String "034"%char EmptyString.

(** The format string of [ConfiguredTransform.script], filled in. *)
Definition script_text (host : string) (liveport : Z) : string :=
  "<script src=" +:+ dquote +:+ "http://" +:+ host +:+ ":"
    +:+ py_str liveport +:+ "/livereload.js" +:+ dquote +:+ "></script>".

Definition is_ascii (s : string) : bool :=
  forallb (fun c => (nat_of_ascii c <? 128)%nat) (chars s).

(** [s.encode('ascii')] *)
Definition encode_ascii (s : string) : M Proc bytes :=
  if is_ascii s then ret (list_byte_of_string s)
  else raise (ExcValueError "'ascii' codec can't encode character").

(** [app.listen(port, address=host)]; whether the operating system
    grants the port is outside the model. *)
Definition listen (a : Application) (port : Z) (host : string)
    : M Proc unit :=
  modify (add_listener (mkListener a port host)).

(** [def application(self, port, host, liveport=None, debug=None)] *)
Definition application (self : Self) (port : Z) (host : string)
    (liveport : option Z) (debug : option bool) : M Proc unit :=
  modify (set_handler_watcher (watcher self)) ;;;
  let liveport := default port liveport in
  debug <-
    match debug with
    | None =>
        a <- get_app self ;;
        ret (if bool_decide (is_Some a) then Some true else None)
    | Some _ => ret debug
    end ;;
  web_handlers <- get_web_handlers self ;;
  script <- encode_ascii (script_text host liveport) ;;
  if bool_decide (liveport = port) then
    listen (mkApplication (live_handlers ++ web_handlers) debug [script])
           port host
  else
    listen (mkApplication web_handlers debug [script]) port host ;;;
    listen (mkApplication live_handlers (Some false) []) liveport host.

(** How [IOLoop.instance().start()] ends when it does: it returns (the
    loop was stopped), or [KeyboardInterrupt] is raised out of it.  The
    call blocks for as long as the loop runs; a run in which it never
    ends has no outcome here. *)
Inductive LoopEnd := LoopReturned | LoopInterrupted.

Definition special_path : string := "__livereload__".

Definition append_change (c : string * Delay) (w : Watcher) : Watcher :=
  mkWatcher (entries w) (_changes w ++ [c]) (file_states w).

(** [def serve(self, port=5500, liveport=None, host=None, root=None,
    debug=None, open_url=False, restart_delay=2)]; the updated [self] is
    returned. *)
Definition serve (self : Self) (port : Z) (liveport : option Z)
    (host : option string) (root_arg : option string) (debug : option bool)
    (open_url : bool) (restart_delay : Delay) (loop_end : LoopEnd)
    : M Proc Self :=
  let host := or_default host "0.0.0.0" in
  let self := match root_arg with
              | Some r => mkSelf (class self) (app self) (Some r) (watcher self)
              | None => self
              end in
  let url := "http://" +:+ host +:+ ":" +:+ py_str port in
  modify (add_printed ("Serving on " +:+ url)) ;;;
  application self port host liveport debug ;;;
  modify set_level_info ;;;
  when open_url (modify (add_thread (OpenerThread url))) ;;;
  modify (set_heap (alter (append_change (special_path, restart_delay))
                          (watcher self))) ;;;
  modify set_ioloop_started ;;;
  when (match loop_end with LoopInterrupted => true | LoopReturned => false end)
       (modify (add_printed "Shutting down...")) ;;;
  ret self.

End Server.


(* ===================================================================== *)
(** ** Fixtures: concrete environments and worlds                        *)
(* ===================================================================== *)

Module Fixtures.

Import Shell.

(** An interpreter (Python 2) in which every [Popen] comes to [o] of the
    file system it finds. *)
Definition env_of (o : FS -> PopenOutcome) : Env :=
  mkEnv (fun _ _ _ fs => o fs) false (fun s => Some s) true.

(** The same processes under an interpreter whose [os] has no [errno]
    (Python 3.7 and later). *)
Definition env37_of (o : FS -> PopenOutcome) : Env :=
  mkEnv (fun _ _ _ fs => o fs) true (fun s => Some s) false.

(** A process that cannot be started. *)
Definition fails (e : OSError) : FS -> PopenOutcome :=
  fun _ => SpawnOSError e.

(** A process that prints and touches no file. *)
Definition prints (stdout stderr : string) (rc : Z) : FS -> PopenOutcome :=
  fun fs => Communicated stdout stderr rc fs.

(** A process that writes [text] to the file [path] by itself, then
    prints. *)
Definition writes (path text stdout stderr : string) (rc : Z)
  : FS -> PopenOutcome :=
  fun fs => Communicated stdout stderr rc
                         (mkFS (dirs fs) (<[ path := text ]> (files fs))).

(** No directory, no file, nothing logged. *)
Definition empty_world : World := mkWorld (mkFS ∅ ∅) [].

Definition lessc : Cmd := CmdList ["lessc"; "style.less"].

Definition lessc_closure : Closure :=
  mkClosure lessc devnull ModeW None false.

Definition permission_denied : OSError := mkOSError EACCES "Permission denied".
Definition not_found : OSError := mkOSError ENOENT "No such file or directory".

(** A watcher with one ['forever'] entry whose task compiles a
    stylesheet, the recorded state of its file, and a snapshot in which
    that file has changed. *)
Definition sass_entry : Watch.WatchEntry :=
  Watch.mkEntry "style.less" (Some (Watch.TaskShell lessc_closure))
                Watch.DelayForever.

Definition sass_watcher : Watch.Watcher :=
  Watch.mkWatcher [sass_entry] [] {[ "style.less" := 1%N ]}.

Definition changed_snapshot : Watch.Snapshot :=
  Watch.mkSnapshot (fun p => [p]) (fun _ => 2%N).

(** A [Server] without a WSGI application, whose watcher is object 0 of a
    process that has done nothing yet. *)
Definition server0 : Server.Self :=
  Server.mkSelf Server.ServerClass None None 0.

Definition proc0 : Server.Proc :=
  Server.mkProc empty_world {[ 0 := Watch.empty_watcher ]} None [] [] false []
                false.

(** A command run through the system shell in a working directory that
    does not exist, the command line left empty. *)
Definition empty_shell_closure : Closure :=
  mkClosure (CmdStr EmptyString) devnull ModeW (Some "/nonexistent") true.

(** A command line handed whole to the system shell. *)
Definition shell_line_closure : Closure :=
  mkClosure (CmdStr "lessc style.less") devnull ModeW None true.

(** Python 3 with a process whose standard output is not valid text. *)
Definition py3_undecodable_env : Env :=
  mkEnv (fun _ _ _ fs => Communicated "binary" EmptyString 0 fs) true
        (fun _ => None) false.


(** A plain [BaseServer] on the same watcher. *)
Definition base_server0 : Server.Self :=
  Server.mkSelf Server.BaseServerClass None None 0.

End Fixtures.

(* ===================================================================== *)
(** ** Auxiliary definitions                                             *)
(* ===================================================================== *)

Module Aux.

Import OS Shell.

(** The text that [f.write] is given in [run_shell]: the standard output,
    decoded under Python 3 ([None] when it does not decode). *)
Definition written_text (E : Env) (stdout : string) : option string :=
  if PY3 E then decode E stdout else Some stdout.

(** The file system [run_shell] works on once [Popen] and
    [communicate] are over: the one the process left, or the one there
    was when no process was started. *)
Definition fs_after_process (E : Env) (c : Closure) (w : World) : FS :=
  match Popen E (cmd c) (cwd c) (use_shell c) (fs w) with
  | Communicated _ _ _ after => after
  | _ => fs w
  end.

(** An ASCII letter. *)
Definition ascii_letter (c : ascii) : bool :=
  let n := nat_of_ascii c in
  ((65 <=? n)%nat && (n <=? 90)%nat) || ((97 <=? n)%nat && (n <=? 122)%nat).

(** A string with an ASCII letter in it: no [int()] reads it in base
    10. *)
Definition has_letter (s : string) : bool := existsb ascii_letter (chars s).

(** A character that [shlex] treats as part of a word: no white space,
    no quote, no backslash. *)
Definition plain_char (c : ascii) : bool :=
  negb (is_whitespace c) && negb (is_quote c) && negb (is_escape c).

(** A non-empty word of such characters. *)
Definition plain_word (w : string) : bool :=
  negb (bool_decide (w = EmptyString)) && forallb plain_char (chars w).

(** [' '.join(words)] *)
Fixpoint join_words (ws : list string) : string :=
  match ws with
  | [] => EmptyString
  | [w] => w
  | w :: rest => w +:+ " " +:+ join_words rest
  end.

End Aux.

(* ===================================================================== *)
(** ** Facts about [shell] and [run_shell]                               *)
(* ===================================================================== *)

Module ShellFacts.

Import Shell Fixtures.

(** Unfold the monad down to pairs. *)
Ltac run_monad :=
  unfold process_left, os_errno_ENOENT, bind, ret, raise, get, modify, when,
    logger_error, lift_fs in *;
  simpl in *.

(** C3.  When the spawned process has written to standard error, whatever
    its exit status, its standard output and what it did to the file
    system, [run_shell] logs those bytes with [logger.error], returns them
    (a failure result) and raises nothing. *)
Theorem run_shell_stderr_is_failure (E : Env) (c : Closure) (w : World)
    (out err : string) (rc : Z) (after : FS) :
  Popen E (cmd c) (cwd c) (use_shell c) (fs w)
    = Communicated out err rc after ->
  err <> EmptyString ->
  run_shell E c w
    = (Return (ResStderr err),
       mkWorld after (log w ++ [LogError (MsgBytes err)]))
  /\ failed (ResStderr err) = true
  /\ raised (fst (run_shell E c w)) = false.
Proof.
  intros HP Herr.
  assert (Hrun : run_shell E c w
    = (Return (ResStderr err),
       mkWorld after (log w ++ [LogError (MsgBytes err)]))).
  { unfold run_shell. run_monad. rewrite HP. simpl.
    rewrite bool_decide_eq_false_2 by exact Herr. reflexivity. }
  rewrite Hrun. auto.
Qed.

Lemma run_shell_stderr_is_failure_witness :
  let E := env_of (prints "body{}" "warning: deprecated" 0) in
  run_shell E lessc_closure empty_world
    = (Return (ResStderr "warning: deprecated"),
       mkWorld (fs empty_world)
               (log empty_world ++ [LogError (MsgBytes "warning: deprecated")]))
  /\ failed (ResStderr "warning: deprecated") = true
  /\ raised (fst (run_shell E lessc_closure empty_world)) = false.
Proof.
  apply (run_shell_stderr_is_failure
           (env_of (prints "body{}" "warning: deprecated" 0))
           lessc_closure empty_world "body{}" "warning: deprecated" 0
           (fs empty_world)).
  - reflexivity.
  - discriminate.
Defined.

(** C9.  When the spawned process has written to standard error,
    [run_shell] returns the error before the [open]/[write] step: the file
    system after the call is the one the process left, so the output file
    holds what the process left there, in whatever mode the task was made
    and whatever went to standard output; where the process did not touch
    that file, its contents are those from before the call. *)
Theorem run_shell_stderr_leaves_output (E : Env) (c : Closure) (w : World)
    (out err : string) (rc : Z) (after : FS) :
  Popen E (cmd c) (cwd c) (use_shell c) (fs w)
    = Communicated out err rc after ->
  err <> EmptyString ->
  fst (run_shell E c w) = Return (ResStderr err)
  /\ fs (snd (run_shell E c w)) = after
  /\ files (fs (snd (run_shell E c w))) !! output c = files after !! output c
  /\ (files after !! output c = files (fs w) !! output c ->
      files (fs (snd (run_shell E c w))) !! output c
      = files (fs w) !! output c).
Proof.
  intros HP Herr.
  unfold run_shell. run_monad. rewrite HP. simpl.
  rewrite bool_decide_eq_false_2 by exact Herr. simpl. auto.
Qed.

Lemma run_shell_stderr_leaves_output_witness :
  let E := env_of (writes "style.map" "{}" "body{}" "warning" 0) in
  let c := mkClosure lessc "style.css" ModeW None false in
  let w := mkWorld (mkFS ∅ {[ "style.css" := "old" ]}) [] in
  let after := mkFS ∅ (<[ "style.map" := "{}" ]> {[ "style.css" := "old" ]}) in
  fst (run_shell E c w) = Return (ResStderr "warning")
  /\ fs (snd (run_shell E c w)) = after
  /\ files (fs (snd (run_shell E c w))) !! output c = files after !! output c
  /\ (files after !! output c = files (fs w) !! output c ->
      files (fs (snd (run_shell E c w))) !! output c
      = files (fs w) !! output c).
Proof.
  apply (run_shell_stderr_leaves_output
           (env_of (writes "style.map" "{}" "body{}" "warning" 0))
           (mkClosure lessc "style.css" ModeW None false)
           (mkWorld (mkFS ∅ {[ "style.css" := "old" ]}) [])
           "body{}" "warning" 0
           (mkFS ∅ (<[ "style.map" := "{}" ]> {[ "style.css" := "old" ]}))).
  - reflexivity.
  - discriminate.
Defined.

(** C2, as stated, fails: [Popen] raising [OSError] with an [errno] other
    than [ENOENT] (here [EACCES], under an interpreter that has
    [os.errno]) is logged and returned, but no hint about the executable
    is logged. *)
Lemma run_shell_permission_denied_no_hint :
  let E := env_of (fails permission_denied) in
  Popen E (cmd lessc_closure) (cwd lessc_closure) (use_shell lessc_closure)
        (fs empty_world) = SpawnOSError permission_denied
  /\ run_shell E lessc_closure empty_world
     = (Return (ResException permission_denied),
        mkWorld (fs empty_world) [LogError (MsgException permission_denied)])
  /\ ~ (exists name,
          logged (LogError (MsgFormat hint_format name))
                 (snd (run_shell E lessc_closure empty_world))).
Proof.
  split; [reflexivity|]. split; [reflexivity|].
  intros [name Hin]. unfold logged in Hin. simpl in Hin.
  apply list_elem_of_singleton in Hin. discriminate Hin.
Qed.

(** C2, amended.  Under an interpreter that has [os.errno], when [Popen]
    raises [OSError]: with an [errno] other than [ENOENT], [run_shell]
    logs the exception, and nothing else, and returns it without raising;
    with [errno] [ENOENT] and a command that has a first element, it logs
    the exception, then the hint naming that element, and returns the
    exception without raising.  The file system is left alone. *)
Theorem run_shell_spawn_failure (E : Env) (c : Closure) (w : World)
    (e : OSError) :
  os_errno E = true ->
  Popen E (cmd c) (cwd c) (use_shell c) (fs w) = SpawnOSError e ->
  (errno e <> ENOENT ->
     run_shell E c w
       = (Return (ResException e),
          mkWorld (fs w) (log w ++ [LogError (MsgException e)])))
  /\ (forall c0, errno e = ENOENT -> cmd_first (cmd c) = inr c0 ->
        run_shell E c w
          = (Return (ResException e),
             mkWorld (fs w)
                     (log w ++ [LogError (MsgException e);
                                LogError (MsgFormat hint_format c0)])))
  /\ failed (ResException e) = true.
Proof.
  intros Hos HP. repeat split.
  - intros Hne. unfold run_shell. run_monad. rewrite HP, Hos. simpl.
    rewrite bool_decide_eq_false_2 by exact Hne. reflexivity.
  - intros c0 He Hc0. unfold run_shell. run_monad. rewrite HP, Hos. simpl.
    rewrite bool_decide_eq_true_2 by exact He. rewrite Hc0. simpl.
    rewrite <- app_assoc. reflexivity.
Qed.

Lemma run_shell_spawn_failure_witness :
  os_errno (env_of (fails not_found)) = true
  /\ Popen (env_of (fails not_found)) (cmd lessc_closure)
        (cwd lessc_closure) (use_shell lessc_closure) (fs empty_world)
    = SpawnOSError not_found
  /\ errno not_found = ENOENT
  /\ cmd_first (cmd lessc_closure) = inr "lessc"
  /\ run_shell (env_of (fails not_found)) lessc_closure empty_world
     = (Return (ResException not_found),
        mkWorld (fs empty_world)
                (log empty_world
                   ++ [LogError (MsgException not_found);
                       LogError (MsgFormat hint_format "lessc")])).
Proof.
  split; [reflexivity|].
  split; [reflexivity|]. split; [reflexivity|]. split; [reflexivity|].
  exact (proj1 (proj2 (run_shell_spawn_failure
                         (env_of (fails not_found))
                         lessc_closure empty_world not_found eq_refl eq_refl))
               "lessc" eq_refl eq_refl).
Defined.


(** The fields of the closure [shell] returns. *)
Lemma shell_closure_fields cmd0 out0 mode0 cwd0 sh w c w' :
  shell cmd0 out0 mode0 cwd0 sh w = (Return c, w') ->
  mode c = mode0 /\ cwd c = cwd0 /\ use_shell c = sh
  /\ output c = (if falsy out0 then devnull else default EmptyString out0)
  /\ match cmd0 with
     | CmdStr s =>
         if sh then cmd c = CmdStr s
         else exists toks, shlex_split s = inr toks /\ cmd c = CmdList toks
     | CmdList l => cmd c = CmdList l
     | CmdTuple l => cmd c = CmdTuple l
     end.
Proof.
  unfold shell. run_monad. intros H.
  destruct cmd0 as [s|l|l], sh; simpl in *;
    repeat (case_match; run_monad; simplify_eq); simpl; eauto 10.
Qed.

(** [run_shell] consults [Popen] at the closure's command, working
    directory and shell flag, and nowhere else: two environments that
    agree there, and on the interpreter, give the same run. *)
Lemma run_shell_spawns_closure_cmd (E E' : Env) (c : Closure) (w : World) :
  Popen E (cmd c) (cwd c) (use_shell c) (fs w)
    = Popen E' (cmd c) (cwd c) (use_shell c) (fs w) ->
  PY3 E = PY3 E' -> decode E = decode E' -> os_errno E = os_errno E' ->
  run_shell E c w = run_shell E' c w.
Proof.
  intros HP H3 Hd Hos. unfold run_shell. run_monad.
  rewrite HP, H3, Hd, Hos. reflexivity.
Qed.

(** C4.  The command of the task [shell] returns, which is the one
    [run_shell] hands to [Popen]: a string command is replaced by its
    [shlex.split] tokens when the shell flag is off and kept verbatim when
    it is on; a list or a tuple is kept as it is. *)
Theorem shell_resolves_command (cmd0 : Cmd) (out0 : option string)
    (mode0 : Mode) (cwd0 : option string) (sh : bool) (w w' : World)
    (c : Closure) :
  shell cmd0 out0 mode0 cwd0 sh w = (Return c, w') ->
  match cmd0 with
  | CmdStr s =>
      if sh then cmd c = CmdStr s
      else exists toks, shlex_split s = inr toks /\ cmd c = CmdList toks
  | CmdList l => cmd c = CmdList l
  | CmdTuple l => cmd c = CmdTuple l
  end
  /\ use_shell c = sh
  /\ (forall (E E' : Env) (w2 : World),
        Popen E (cmd c) cwd0 sh (fs w2) = Popen E' (cmd c) cwd0 sh (fs w2) ->
        PY3 E = PY3 E' -> decode E = decode E' -> os_errno E = os_errno E' ->
        run_shell E c w2 = run_shell E' c w2).
Proof.
  intros H. destruct (shell_closure_fields _ _ _ _ _ _ _ _ H)
    as (_ & Hcwd & Hsh & _ & Hcmd).
  split; [exact Hcmd|]. split; [exact Hsh|].
  intros E E' w2 HP. apply run_shell_spawns_closure_cmd.
  rewrite Hcwd, Hsh. exact HP.
Qed.

Lemma shell_resolves_command_witness :
  shell (CmdStr "lessc 'my style.less'") None ModeW None false empty_world
    = (Return (mkClosure (CmdList ["lessc"; "my style.less"]) devnull ModeW
                         None false),
       empty_world)
  /\ (exists toks,
        shlex_split "lessc 'my style.less'" = inr toks
        /\ CmdList ["lessc"; "my style.less"] = CmdList toks).
Proof.
  split; [reflexivity|].
  exact (proj1 (shell_resolves_command
                  (CmdStr "lessc 'my style.less'") None ModeW None false
                  empty_world empty_world
                  (mkClosure (CmdList ["lessc"; "my style.less"]) devnull
                             ModeW None false)
                  eq_refl)).
Defined.

(** With the shell flag on, the same string reaches [Popen] whole; a list
    with a blank inside an element is not split. *)
Example shell_verbatim :
  fst (shell (CmdStr "lessc 'my style.less'") None ModeW None true empty_world)
    = Return (mkClosure (CmdStr "lessc 'my style.less'") devnull ModeW None true)
  /\ fst (shell (CmdList ["lessc"; "my style.less"]) None ModeW None false
               empty_world)
     = Return (mkClosure (CmdList ["lessc"; "my style.less"]) devnull ModeW
                         None false).
Proof. split; reflexivity. Qed.






End ShellFacts.

(* ===================================================================== *)
(** ** Facts about [transform_first_chunk]                               *)
(* ===================================================================== *)

Module InjectFacts.

Import Inject.
Local Open Scope list_scope.

Section sequences.
Context {A : Type} `{EqDecision A}.
Implicit Types old new l p : list A.

Lemma startswith_app p l : startswith p (p ++ l) = true.
Proof.
  induction p as [|x p IH]; simpl; [reflexivity|].
  rewrite bool_decide_eq_true_2 by reflexivity. exact IH.
Qed.

Lemma startswith_split p l : startswith p l = true -> l = p ++ drop (List.length p) l.
Proof.
  revert l. induction p as [|x p IH]; intros [|y l]; simpl; try done.
  intros [Hxy Hp]%andb_true_iff. apply bool_decide_eq_true in Hxy. subst y.
  f_equal. apply IH, Hp.
Qed.

(** A pending skip is the same as dropping that many elements first. *)
Lemma replace_from_drop k old new l :
  replace_from k old new l = replace old new (drop k l).
Proof.
  revert k. induction l as [|c t IH]; intros [|k]; try reflexivity.
  simpl. apply IH.
Qed.

(** At an occurrence, [new] is emitted and the scan resumes after it. *)
Lemma replace_occurrence old new l :
  old <> [] -> replace old new (old ++ l) = new ++ replace old new l.
Proof.
  destruct old as [|x old]; [done|]. intros _.
  unfold replace at 1. simpl.
  rewrite bool_decide_eq_true_2 by reflexivity.
  rewrite startswith_app. simpl. rewrite Nat.sub_0_r.
  rewrite replace_from_drop, drop_app_length. reflexivity.
Qed.

Lemma replace_step old new c l :
  startswith old (c :: l) = false ->
  replace old new (c :: l) = c :: replace old new l.
Proof. intros H0. unfold replace. simpl replace_from. rewrite H0. reflexivity. Qed.

Lemma contains_cons_false sub c l :
  contains sub (c :: l) = false ->
  startswith sub (c :: l) = false /\ contains sub l = false.
Proof. simpl. intros H0. apply orb_false_iff in H0. exact H0. Qed.

(** Without an occurrence nothing changes. *)
Lemma replace_absent old new l : contains old l = false -> replace old new l = l.
Proof.
  induction l as [|c t IH]; [reflexivity|].
  intros [Hs Ht]%contains_cons_false.
  rewrite replace_step by exact Hs. f_equal. exact (IH Ht).
Qed.

Lemma contains_app_r sub a l : contains sub (a ++ sub ++ l) = true.
Proof.
  induction a as [|c a IH].
  - simpl app. destruct (sub ++ l) as [|c t] eqn:Heq.
    + destruct sub; [reflexivity | discriminate Heq].
    + simpl. rewrite <- Heq, startswith_app. reflexivity.
  - simpl. rewrite IH. apply orb_true_r.
Qed.

Lemma contains_suffix_false sub a l :
  contains sub (a ++ l) = false -> contains sub l = false.
Proof.
  induction a as [|c a IH]; simpl; [done|].
  intros [_ Ht]%orb_false_iff. exact (IH Ht).
Qed.

Lemma join_cons2 (sep s s' : list A) (rest : list (list A)) :
  join sep (s :: s' :: rest) = s ++ sep ++ join sep (s' :: rest).
Proof. reflexivity. Qed.

Lemma length_join (sep : list A) (segs : list (list A)) :
  List.length (join sep segs)
  = list_sum (map List.length segs) + (List.length segs - 1) * List.length sep.
Proof.
  induction segs as [|s [|s' rest] IH]; simpl in *; [lia | lia |].
  rewrite !length_app, IH. simpl. lia.
Qed.

End sequences.

Lemma HEAD_END_bytes :
  HEAD_END = ["<"; "/"; "h"; "e"; "a"; "d"; ">"]%byte.
Proof. reflexivity. Qed.

Lemma HEAD_END_nonempty : HEAD_END <> [].
Proof. discriminate. Qed.

(** Turn [b1 && ... && bn = true] over [bool_decide]s into equations. *)
Ltac starts_equations H :=
  repeat match type of H with
         | (bool_decide _ && _) = true =>
             let H1 := fresh "Hb" in
             apply andb_true_iff in H as [H1 H];
             apply bool_decide_eq_true in H1
         end.

(** The marker cannot begin inside a clean segment and run into the
    marker that follows it: no proper suffix of the marker is a prefix of
    it. *)
Lemma head_end_no_overlap (seg rest : bytes) :
  clean seg -> startswith HEAD_END (seg ++ HEAD_END ++ rest) = true -> seg = [].
Proof.
  unfold clean. rewrite HEAD_END_bytes. intros Hclean H0.
  destruct seg as [|c1 [|c2 [|c3 [|c4 [|c5 [|c6 [|c7 seg]]]]]]];
    [reflexivity | | | | | | |];
    simpl in H0; starts_equations H0; simplify_eq.
Qed.

(** A clean segment followed by the marker: the segment is copied, the
    marker is replaced, and the scan goes on behind it. *)
Lemma replace_segment (new seg rest : bytes) :
  clean seg ->
  replace HEAD_END new (seg ++ HEAD_END ++ rest)
  = seg ++ new ++ replace HEAD_END new rest.
Proof.
  induction seg as [|c seg IH]; intros Hclean.
  - exact (replace_occurrence HEAD_END new rest HEAD_END_nonempty).
  - destruct (contains_cons_false _ _ _ Hclean) as [_ Hseg].
    assert (Hs : startswith HEAD_END ((c :: seg) ++ HEAD_END ++ rest) = false).
    { destruct (startswith HEAD_END ((c :: seg) ++ HEAD_END ++ rest)) eqn:Hs;
        [|reflexivity].
      discriminate (head_end_no_overlap (c :: seg) rest Hclean Hs). }
    change ((c :: seg) ++ HEAD_END ++ rest)
      with (c :: (seg ++ HEAD_END ++ rest)) in *.
    rewrite (replace_step _ _ _ _ Hs), (IH Hseg). reflexivity.
Qed.

(** Replacing in a chunk cut at its markers re-joins the same segments
    with the script put before every marker. *)
Lemma replace_join (script : bytes) (segs : list bytes) :
  segs <> [] -> Forall clean segs ->
  replace HEAD_END (script ++ HEAD_END) (join HEAD_END segs)
  = join (script ++ HEAD_END) segs.
Proof.
  induction segs as [|s [|s' rest] IH]; intros Hne Hall; [done| |].
  - simpl. apply replace_absent. exact (Forall_inv Hall).
  - rewrite !join_cons2.
    rewrite replace_segment by exact (Forall_inv Hall).
    rewrite IH; [reflexivity | discriminate | exact (Forall_inv_tail Hall)].
Qed.

Lemma contains_join (segs : list bytes) :
  Forall clean segs ->
  contains HEAD_END (join HEAD_END segs) = bool_decide (2 <= List.length segs).
Proof.
  destruct segs as [|s [|s' rest]]; intros Hall.
  - reflexivity.
  - exact (Forall_inv Hall).
  - rewrite join_cons2, contains_app_r. symmetry.
    apply bool_decide_eq_true. simpl. lia.
Qed.

(** Every chunk is its clean segments joined by the marker. *)
Lemma chunk_segments (chunk : bytes) :
  exists segs, segs <> [] /\ Forall clean segs /\ chunk = join HEAD_END segs.
Proof.
  induction chunk as [|c t (segs & Hne & Hall & ->)].
  - exists [[]]. repeat split; [discriminate | constructor; [reflexivity | constructor]].
  - destruct segs as [|s rest]; [done|].
    pose proof (Forall_inv Hall) as Hs. pose proof (Forall_inv_tail Hall) as Hrest.
    destruct (startswith HEAD_END (c :: s)) eqn:Hstart.
    + apply startswith_split in Hstart.
      set (s' := drop (List.length HEAD_END) (c :: s)) in *.
      exists ([] :: s' :: rest). split; [discriminate|]. split.
      * constructor; [reflexivity|]. constructor; [|exact Hrest].
        unfold clean. apply (contains_suffix_false _ (tail HEAD_END)).
        assert (Heq : s = tail HEAD_END ++ s').
        { rewrite HEAD_END_bytes in Hstart |- *. simpl in Hstart |- *.
          injection Hstart as _ Hstart. exact Hstart. }
        rewrite <- Heq. exact Hs.
      * rewrite join_cons2, app_nil_l.
        destruct rest as [|s2 rest].
        -- change (join HEAD_END [s']) with s'.
           change (join HEAD_END [s]) with s. exact Hstart.
        -- rewrite !join_cons2, (app_assoc HEAD_END s'), <- Hstart.
           reflexivity.
    + exists ((c :: s) :: rest). split; [discriminate|]. split.
      * constructor; [|exact Hrest]. unfold clean. simpl contains.
        simpl in Hstart. rewrite Hstart. exact Hs.
      * destruct rest; reflexivity.
Qed.

(** *** [int(str(n)) == n] *)

Lemma digits_value_step (acc k : Z) (c : ascii) (l : list ascii) :
  digit_of c = Some k ->
  digits_value acc (c :: l) = digits_value (10 * acc + k) l.
Proof. intros Hc. simpl. rewrite Hc. reflexivity. Qed.

Lemma digits_value_acc (p : positive) (d : Decimal.uint) :
  digits_value (Zpos p) (chars (NilEmpty.string_of_uint d))
  = Some (Zpos (Pos.of_uint_acc d p)).
Proof.
  revert p. induction d; intros p; [reflexivity | ..];
    cbn [NilEmpty.string_of_uint chars list_ascii_of_string Pos.of_uint_acc];
    change (list_ascii_of_string (NilEmpty.string_of_uint d))
      with (chars (NilEmpty.string_of_uint d));
    (erewrite digits_value_step by (vm_compute; reflexivity));
    rewrite <- IHd; f_equal; lia.
Qed.

Lemma digits_value_0 (d : Decimal.uint) :
  digits_value 0 (chars (NilEmpty.string_of_uint d)) = Some (Z.of_uint d).
Proof.
  unfold Z.of_uint.
  induction d; [reflexivity | ..];
    cbn [NilEmpty.string_of_uint chars list_ascii_of_string Pos.of_uint];
    change (list_ascii_of_string (NilEmpty.string_of_uint d))
      with (chars (NilEmpty.string_of_uint d));
    (erewrite digits_value_step by (vm_compute; reflexivity));
    [exact IHd | rewrite N2Z.inj_pos, <- digits_value_acc; reflexivity ..].
Qed.

Lemma digits_value_zero_string (d : Decimal.uint) :
  digits_value 0 (chars (NilZero.string_of_uint d)) = Some (Z.of_uint d).
Proof. destruct d; try reflexivity; apply digits_value_0. Qed.

Lemma no_space_uint (d : Decimal.uint) :
  Forall (fun c => is_space c = false) (chars (NilZero.string_of_uint d)).
Proof.
  assert (He : forall u, Forall (fun c => is_space c = false)
                                (chars (NilEmpty.string_of_uint u))).
  { induction u; simpl; constructor; try reflexivity; exact IHu. }
  destruct d; try apply He. repeat constructor.
Qed.

Lemma drop_while_none {A} (f : A -> bool) (l : list A) :
  Forall (fun c => f c = false) l -> drop_while f l = l.
Proof.
  destruct 1 as [|c l Hc _]; simpl; [reflexivity|]. rewrite Hc. reflexivity.
Qed.

Lemma rstrip_none {A} (f : A -> bool) (l : list A) :
  Forall (fun c => f c = false) l -> rstrip f l = l.
Proof.
  intros Hl. unfold rstrip. rewrite drop_while_none.
  - apply rev_involutive.
  - apply Forall_rev. exact Hl.
Qed.

(** The decimal string of an unsigned number starts with a digit. *)
Lemma uint_chars_digit (d : Decimal.uint) :
  exists c ds, chars (NilZero.string_of_uint d) = c :: ds
               /\ c <> "-"%char /\ c <> "+"%char.
Proof. destruct d; simpl; eexists _, _; repeat split; discriminate. Qed.

(** What [str] prints, [int] reads back. *)
Lemma py_int_py_str (z : Z) : py_int (py_str z) = Some z.
Proof.
  unfold py_str. rewrite <- (DecimalZ.of_to z) at 2.
  destruct (Z.to_int z) as [d|d]; unfold py_int, NilZero.string_of_int.
  - rewrite drop_while_none, rstrip_none by apply no_space_uint.
    destruct (uint_chars_digit d) as (c & ds & Hcs & Hm & Hp).
    pose proof (digits_value_zero_string d) as Hv. rewrite Hcs in Hv |- *.
    rewrite !bool_decide_eq_false_2 by assumption. exact Hv.
  - change (chars (String "-" (NilZero.string_of_uint d)))
      with ("-"%char :: chars (NilZero.string_of_uint d)).
    assert (Hns : Forall (fun c => is_space c = false)
                         ("-"%char :: chars (NilZero.string_of_uint d)))
      by (constructor; [reflexivity | apply no_space_uint]).
    rewrite drop_while_none, rstrip_none by exact Hns.
    rewrite bool_decide_eq_true_2 by reflexivity.
    destruct (uint_chars_digit d) as (c & ds & Hcs & _).
    pose proof (digits_value_zero_string d) as Hv. rewrite Hcs in Hv |- *.
    rewrite Hv. reflexivity.
Qed.

(** C10.  Cut the chunk at its markers into clean segments.  When the
    chunk has no marker (one segment) the status code, the headers and
    the chunk come back as they were.  When it has one or more, the chunk
    that comes back is the same segments with the script put before every
    marker, and a Content-Length header holding the integer [n] is set to
    the string of [n] plus one script length (which reads back as that
    integer), however many markers there are; without that header the
    headers come back as they were. *)
Theorem transform_first_chunk_spec (script : bytes) (status_code : Z)
    (headers : Headers) (chunk : bytes) (finishing : bool) :
  exists segs : list bytes,
    segs <> [] /\ Forall clean segs /\ chunk = join HEAD_END segs
    /\ (contains HEAD_END chunk = false ->
          List.length segs = 1
          /\ transform_first_chunk script status_code headers chunk finishing
             = Return (status_code, headers, chunk))
    /\ (contains HEAD_END chunk = true ->
          2 <= List.length segs
          /\ (headers !! "Content-Length" = None ->
                transform_first_chunk script status_code headers chunk finishing
                = Return (status_code, headers,
                          join (script ++ HEAD_END) segs))
          /\ (forall (v : string) (n : Z),
                headers !! "Content-Length" = Some v -> py_int v = Some n ->
                transform_first_chunk script status_code headers chunk finishing
                = Return (status_code,
                          <[ "Content-Length" :=
                               py_str (n + Z.of_nat (List.length script)) ]>
                            headers,
                          join (script ++ HEAD_END) segs)
                /\ py_int (py_str (n + Z.of_nat (List.length script)))
                   = Some (n + Z.of_nat (List.length script))%Z)
          /\ List.length (join (script ++ HEAD_END) segs)
             = List.length chunk + (List.length segs - 1) * List.length script).
Proof.
  destruct (chunk_segments chunk) as (segs & Hne & Hall & ->).
  exists segs. split; [exact Hne|]. split; [exact Hall|]. split; [reflexivity|].
  pose proof (contains_join segs Hall) as Hc.
  pose proof (replace_join script segs Hne Hall) as Hr.
  split.
  - intros Hno. rewrite Hno in Hc. symmetry in Hc.
    apply bool_decide_eq_false in Hc. split.
    + destruct segs as [|s [|s' rest]]; simpl in *; [done | reflexivity | lia].
    + unfold transform_first_chunk. rewrite Hno. reflexivity.
  - intros Hyes. rewrite Hyes in Hc. symmetry in Hc.
    apply bool_decide_eq_true in Hc. split; [exact Hc|].
    unfold transform_first_chunk. rewrite Hyes, Hr. split; [|split].
    + intros ->. reflexivity.
    + intros v n -> ->. split; [reflexivity | apply py_int_py_str].
    + rewrite !length_join, length_app. nia.
Qed.

(** Three markers, one script length added to the header. *)
Example transform_three_markers :
  let b := list_byte_of_string in
  transform_first_chunk (b "<S>") 200 {[ "Content-Length" := "47" ]}
    (b "<html><head>x</head><body></head></head></body>") true
  = Return (200%Z, {[ "Content-Length" := "50" ]},
            b "<html><head>x<S></head><body><S></head><S></head></body>").
Proof. vm_compute. reflexivity. Qed.

End InjectFacts.

(* ===================================================================== *)
(** ** Facts about the polling cycle                                     *)
(* ===================================================================== *)

Module WatchFacts.

Import Shell Watch.
Local Open Scope list_scope.

(** Every entry of the batch that has a task appears among the tasks
    run, with one result or the other. *)
Lemma execute_runs (E : Env) (b : list WatchEntry) (w : World)
    (e : WatchEntry) (t : Task) :
  e ∈ b -> task e = Some t -> exists ok, (e, ok) ∈ fst (execute E b w).
Proof.
  revert w. induction b as [|e' b IH]; intros w Hin Ht.
  - apply elem_of_nil in Hin. destruct Hin.
  - simpl. apply elem_of_cons in Hin as [<- | Hin].
    + rewrite Ht. destruct (run_task E t w) as [ok w1].
      destruct (execute E b w1) as [r w2]. exists ok. simpl. left.
    + destruct (task e') as [t'|].
      * destruct (run_task E t' w) as [ok' w1].
        destruct (IH w1 Hin Ht) as [ok Hok].
        destruct (execute E b w1) as [r w2]. exists ok. simpl in *. right. exact Hok.
      * exact (IH w Hin Ht).
Qed.

(** No delay to report exactly when every entry is ['forever']. *)
Lemma min_delay_None (b : list WatchEntry) :
  min_delay b = None <-> Forall (fun e => delay e = DelayForever) b.
Proof.
  induction b as [|e b IH]; simpl.
  - split; [constructor | reflexivity].
  - destruct (delay e) eqn:Hd; simpl.
    + split; [destruct (min_delay b); discriminate | intros H; inversion H; congruence].
    + split; [destruct (min_delay b); discriminate | intros H; inversion H; congruence].
    + rewrite IH. split; [intros H; constructor; [exact Hd|exact H]
                         | intros H; inversion H; assumption].
Qed.

(** A delay to report comes from an entry that is not ['forever']. *)
Lemma min_delay_Some (b : list WatchEntry) :
  min_delay b <> None -> exists e, e ∈ b /\ delay e <> DelayForever.
Proof.
  induction b as [|e b IH]; simpl; [done|].
  destruct (delay e) eqn:Hd.
  - intros _. exists e. split; [left | congruence].
  - intros _. exists e. split; [left | congruence].
  - intros Hm. destruct (IH Hm) as (e' & He' & Hd').
    exists e'. split; [right; exact He' | exact Hd'].
Qed.

(** ['forever'] entries add nothing to the delay that is reported. *)
Lemma min_delay_without_forever (b : list WatchEntry) :
  min_delay (List.filter (fun e => negb (is_forever e)) b) = min_delay b.
Proof.
  induction b as [|e b IH]; [reflexivity|].
  unfold is_forever in *. simpl. destruct (delay e) eqn:Hd; simpl; rewrite ?Hd, IH;
    reflexivity.
Qed.

Lemma elem_of_batch (snap : Snapshot) (wt : Watcher) (e : WatchEntry) :
  e ∈ batch snap wt
  <-> e ∈ entries wt /\ triggered snap (file_states wt) e = true.
Proof.
  unfold batch. rewrite !list_elem_of_In. apply filter_In.
Qed.

Lemma poll_report (E : Env) (snap : Snapshot) (wt : Watcher) (w : World) :
  fst (fst (poll E snap wt w))
  = mkReport (fst (execute E (batch snap wt) w)) (emit snap wt).
Proof.
  unfold poll. destruct (execute E (batch snap wt) w). reflexivity.
Qed.

Lemma emit_None (snap : Snapshot) (wt : Watcher) :
  emit snap wt = None <-> min_delay (batch snap wt) = None.
Proof.
  unfold emit. destruct (min_delay (batch snap wt)); split; done.
Qed.

(** C1.  In a polling cycle in which a path of a registered ['forever']
    entry has changed, the entry's task is run (with whatever result, for
    every behaviour of the spawned process or the callable); a change
    event, if there is one, is owed to a triggered entry that is not
    ['forever']; when the other triggered entries are ['forever'] too,
    no event is emitted and no reload command is sent to any session; and
    the delay computed from the batch is the one computed without its
    ['forever'] entries. *)
Theorem forever_entry_never_reloads (E : Env) (snap : Snapshot)
    (wt : Watcher) (w : World) (sessions : list (nat * SessionState))
    (e : WatchEntry) (t : Task) :
  e ∈ entries wt -> delay e = DelayForever -> task e = Some t ->
  triggered snap (file_states wt) e = true ->
  (exists ok, (e, ok) ∈ ran (fst (fst (poll E snap wt w))))
  /\ (event (fst (fst (poll E snap wt w))) <> None ->
        exists e', e' ∈ batch snap wt /\ delay e' <> DelayForever)
  /\ ((forall e', e' ∈ batch snap wt -> e' <> e -> delay e' = DelayForever) ->
        event (fst (fst (poll E snap wt w))) = None
        /\ broadcast sessions (event (fst (fst (poll E snap wt w)))) = [])
  /\ min_delay (List.filter (fun e' => negb (is_forever e')) (batch snap wt))
     = min_delay (batch snap wt).
Proof.
  intros Hin Hforever Htask Htrig. rewrite poll_report. simpl.
  assert (Hb : e ∈ batch snap wt) by (apply elem_of_batch; auto).
  split; [exact (execute_runs E _ w e t Hb Htask)|]. split; [|split].
  - intros Hev. apply min_delay_Some. intros Hm. apply Hev, emit_None, Hm.
  - intros Hothers.
    assert (Hnone : emit snap wt = None).
    { apply emit_None, min_delay_None, Forall_forall. intros e' He'.
      destruct (delay e') eqn:Hd; [exfalso | exfalso | reflexivity];
        (assert (He : e' <> e) by (intros ->; congruence));
        specialize (Hothers e' He' He); congruence. }
    rewrite Hnone. split; reflexivity.
  - apply min_delay_without_forever.
Qed.

Lemma forever_entry_never_reloads_witness :
  let E := Fixtures.env_of (Fixtures.prints "body{}" "oops" 1) in
  let rep := fst (fst (poll E Fixtures.changed_snapshot Fixtures.sass_watcher
                            Fixtures.empty_world)) in
  triggered Fixtures.changed_snapshot (file_states Fixtures.sass_watcher)
            Fixtures.sass_entry = true
  /\ (exists ok, (Fixtures.sass_entry, ok) ∈ ran rep)
  /\ event rep = None
  /\ broadcast [(1, Active); (2, Active)] (event rep) = [].
Proof.
  pose proof (forever_entry_never_reloads
                (Fixtures.env_of (Fixtures.prints "body{}" "oops" 1))
                Fixtures.changed_snapshot Fixtures.sass_watcher
                Fixtures.empty_world [(1, Active); (2, Active)]
                Fixtures.sass_entry (TaskShell Fixtures.lessc_closure))
    as Hthm.
  assert (Hin : Fixtures.sass_entry ∈ entries Fixtures.sass_watcher)
    by (simpl; left).
  assert (Htrig : triggered Fixtures.changed_snapshot
                            (file_states Fixtures.sass_watcher)
                            Fixtures.sass_entry = true)
    by (vm_compute; reflexivity).
  destruct (Hthm Hin eq_refl eq_refl Htrig) as (Hran & _ & Hnone & _).
  split; [exact Htrig|]. split; [exact Hran|].
  apply Hnone. intros e' He' Hne.
  apply elem_of_batch in He' as [He' _]. simpl in He'.
  apply list_elem_of_singleton in He'. contradiction.
Defined.

End WatchFacts.

(* ===================================================================== *)
(** ** Facts about [BaseServer] and [Server]                             *)
(* ===================================================================== *)

Module ServerFacts.

Import Shell Watch Inject Server.
Local Open Scope list_scope.

Lemma is_ascii_append (a b : string) :
  is_ascii (a +:+ b) = is_ascii a && is_ascii b.
Proof.
  unfold is_ascii, chars. induction a as [|c a IH]; simpl; [reflexivity|].
  rewrite IH. apply andb_assoc.
Qed.

Lemma is_ascii_uint (d : Decimal.uint) :
  is_ascii (NilEmpty.string_of_uint d) = true.
Proof. induction d; simpl; try reflexivity; exact IHd. Qed.

(** [str] of an integer is made of digits and a sign. *)
Lemma is_ascii_py_str (n : Z) : is_ascii (py_str n) = true.
Proof.
  unfold py_str, NilZero.string_of_int, NilZero.string_of_uint.
  destruct (Z.to_int n) as [d|d]; destruct d; try reflexivity.
  all: try match goal with
           | |- is_ascii (NilEmpty.string_of_uint ?u) = true =>
               apply (is_ascii_uint u)
           | |- is_ascii (String "-" (NilEmpty.string_of_uint ?u)) = true =>
               exact (is_ascii_uint u)
           end.
Qed.

Lemma is_ascii_script_text (host : string) (liveport : Z) :
  is_ascii host = true -> is_ascii (script_text host liveport) = true.
Proof.
  intros Hh. unfold script_text.
  rewrite !is_ascii_append, Hh, is_ascii_py_str. reflexivity.
Qed.

Ltac run_proc :=
  unfold bind, ret, raise, get, modify, when, listen, encode_ascii, get_app,
    get_web_handlers in *;
  simpl in *.

(** The content handlers of a [Server]. *)
Lemma get_web_handlers_server (self : Self) (p : Proc) :
  class self = ServerClass ->
  get_web_handlers self p
  = (Return match app self with
            | Some a => [(".*", FallbackHandler a)]
            | None => [("/(.*)",
                        StaticFileHandler (or_default (root self) ".")
                                          "index.html")]
            end, p).
Proof.
  intros Hc. unfold get_web_handlers. rewrite Hc. destruct (app self); reflexivity.
Qed.

(** [application] on a [Server] with an ASCII host name: it returns, the
    handler class points at the server's watcher, and one or two
    listeners are added. *)
Lemma application_server (self : Self) (port : Z) (host : string)
    (liveport : option Z) (debug : option bool) (p : Proc) :
  class self = ServerClass -> is_ascii host = true ->
  let web := match app self with
             | Some a => [(".*", FallbackHandler a)]
             | None => [("/(.*)",
                         StaticFileHandler (or_default (root self) ".")
                                           "index.html")]
             end in
  let dbg := match debug with
             | None => if bool_decide (is_Some (app self)) then Some true else None
             | Some _ => debug
             end in
  let lp := default port liveport in
  let script := list_byte_of_string (script_text host lp) in
  let added := if bool_decide (lp = port)
               then [mkListener (mkApplication (live_handlers ++ web) dbg [script])
                                port host]
               else [mkListener (mkApplication web dbg [script]) port host;
                     mkListener (mkApplication live_handlers (Some false) [])
                                lp host] in
  application self port host liveport debug p
  = (Return tt,
     mkProc (world p) (heap p) (Some (watcher self)) (listeners p ++ added)
            (printed p) (level_info p) (threads p) (ioloop_started p)).
Proof.
  intros Hc Hh. simpl. unfold application. run_proc. rewrite Hc.
  rewrite (is_ascii_script_text host (default port liveport) Hh).
  destruct debug as [b|]; simpl;
    destruct (app self); simpl;
    destruct (bool_decide (default port liveport = port)); run_proc;
    unfold add_listener, set_handler_watcher; simpl;
    rewrite <- ?app_assoc; reflexivity.
Qed.

(** C7.  For a [Server] and an ASCII host name [application] returns
    and adds listeners as follows.  With no live port, or a live port
    equal to the port: one application, holding the three reload-channel
    routes followed by the content handlers, listening on the port at the
    host.  With a different live port: two applications, the content
    handlers on the port and the three reload-channel routes on the live
    port, both at the host. *)
Theorem application_one_or_two_listeners (self : Self) (port : Z)
    (host : string) (liveport : option Z) (debug : option bool) (p : Proc) :
  class self = ServerClass -> is_ascii host = true ->
  exists (web : list Route) (dbg : option bool),
    fst (get_web_handlers self p) = Return web
    /\ map fst live_handlers = ["/livereload"; "/forcereload"; "/livereload.js"]
    /\ fst (application self port host liveport debug p) = Return tt
    /\ (liveport = None \/ liveport = Some port ->
          listeners (snd (application self port host liveport debug p))
          = listeners p
              ++ [mkListener
                    (mkApplication (live_handlers ++ web) dbg
                       [list_byte_of_string (script_text host port)])
                    port host])
    /\ (forall lp : Z, liveport = Some lp -> lp <> port ->
          listeners (snd (application self port host liveport debug p))
          = listeners p
              ++ [mkListener
                    (mkApplication web dbg
                       [list_byte_of_string (script_text host lp)])
                    port host;
                  mkListener (mkApplication live_handlers (Some false) [])
                             lp host]).
Proof.
  intros Hc Hh.
  pose proof (application_server self port host liveport debug p Hc Hh) as Ha.
  simpl in Ha. rewrite Ha, (get_web_handlers_server self p Hc). simpl.
  eexists _, _. split; [reflexivity|]. split; [reflexivity|].
  split; [reflexivity|]. split.
  - intros [-> | ->]; simpl; rewrite bool_decide_eq_true_2 by reflexivity;
      reflexivity.
  - intros lp -> Hne. simpl. rewrite bool_decide_eq_false_2 by exact Hne.
    reflexivity.
Qed.

Lemma application_one_or_two_listeners_witness :
  class Fixtures.server0 = ServerClass
  /\ is_ascii "127.0.0.1" = true
  /\ exists dbg,
       listeners (snd (application Fixtures.server0 5500 "127.0.0.1"
                                   (Some 35729%Z) None Fixtures.proc0))
       = [mkListener
            (mkApplication
               [("/(.*)", StaticFileHandler "." "index.html")] dbg
               [list_byte_of_string (script_text "127.0.0.1" 35729)])
            5500 "127.0.0.1";
          mkListener (mkApplication live_handlers (Some false) [])
                     35729 "127.0.0.1"].
Proof.
  split; [reflexivity|]. split; [reflexivity|].
  destruct (application_one_or_two_listeners
              Fixtures.server0 5500 "127.0.0.1" (Some 35729%Z) None
              Fixtures.proc0 eq_refl eq_refl)
    as (web & dbg & Hweb & _ & _ & _ & Htwo).
  exists dbg. rewrite (Htwo 35729%Z eq_refl ltac:(discriminate)).
  injection Hweb as <-. reflexivity.
Defined.











End ServerFacts.

(* ===================================================================== *)
(** ** More about [shell] and [run_shell]                                *)
(* ===================================================================== *)

Module ShellMore.

Import Shell Fixtures Aux.
Local Open Scope list_scope.

Ltac run_monad :=
  unfold process_left, os_errno_ENOENT, bind, ret, raise, get, modify, when,
    logger_error, lift_fs in *;
  simpl in *.

(** X1.  Under an interpreter that has [os.errno], when [Popen] raises
    [OSError] with [errno] [ENOENT] and the command is empty (an empty
    string run through the shell, an empty list or tuple), the [cmd[0]] of
    the hint raises [IndexError] inside the handler: [run_shell] has
    logged the exception, then raises, and returns no error result. *)
Theorem run_shell_not_found_empty_command (E : Env) (c : Closure)
    (w : World) (e : OSError) :
  os_errno E = true ->
  Popen E (cmd c) (cwd c) (use_shell c) (fs w) = SpawnOSError e ->
  errno e = ENOENT ->
  cmd c = CmdStr EmptyString \/ cmd c = CmdList [] \/ cmd c = CmdTuple [] ->
  exists msg,
    run_shell E c w
    = (Raise (ExcIndexError msg),
       mkWorld (fs w) (log w ++ [LogError (MsgException e)])).
Proof.
  intros Hos HP He Hc. unfold run_shell. run_monad. rewrite HP, Hos. simpl.
  rewrite bool_decide_eq_true_2 by exact He.
  destruct Hc as [-> | [-> | ->]]; simpl; eexists; reflexivity.
Qed.

Lemma run_shell_not_found_empty_command_witness :
  exists msg,
    run_shell (env_of (fails not_found)) empty_shell_closure empty_world
    = (Raise (ExcIndexError msg),
       mkWorld (fs empty_world)
               (log empty_world ++ [LogError (MsgException not_found)])).
Proof.
  apply (run_shell_not_found_empty_command
           (env_of (fails not_found)) empty_shell_closure empty_world
           not_found).
  - reflexivity.
  - reflexivity.
  - reflexivity.
  - left. reflexivity.
Defined.

(** X2.  Under an interpreter that has [os.errno], when the command is a
    string (the shell flag was on) and [Popen] raises [OSError] with
    [errno] [ENOENT], the hint names the first character of the command
    line, not its first word. *)
Theorem run_shell_hint_first_character (E : Env) (c : Closure) (w : World)
    (e : OSError) (a : ascii) (rest : string) :
  os_errno E = true ->
  Popen E (cmd c) (cwd c) (use_shell c) (fs w) = SpawnOSError e ->
  errno e = ENOENT ->
  cmd c = CmdStr (String a rest) ->
  run_shell E c w
  = (Return (ResException e),
     mkWorld (fs w)
             (log w ++ [LogError (MsgException e);
                        LogError (MsgFormat hint_format
                                            (String a EmptyString))])).
Proof.
  intros Hos HP He Hc. unfold run_shell. run_monad. rewrite HP, Hc, Hos.
  simpl. rewrite bool_decide_eq_true_2 by exact He. simpl.
  rewrite <- app_assoc. reflexivity.
Qed.

Lemma run_shell_hint_first_character_witness :
  run_shell (env_of (fails not_found)) shell_line_closure empty_world
  = (Return (ResException not_found),
     mkWorld (fs empty_world)
             (log empty_world
                ++ [LogError (MsgException not_found);
                    LogError (MsgFormat hint_format "l")])).
Proof.
  apply (run_shell_hint_first_character
           (env_of (fails not_found)) shell_line_closure empty_world
           not_found "l"%char "essc style.less").
  - reflexivity.
  - reflexivity.
  - reflexivity.
  - reflexivity.
Defined.

(** X20.  Under an interpreter whose [os] has no [errno] (Python 3.7 and
    later), when [Popen] raises [OSError], whatever its [errno] and
    whatever the command: [run_shell] logs the exception, then the guard
    of the hint raises [AttributeError] inside the handler; no result is
    returned, no hint is logged and the file system is left alone. *)
Theorem run_shell_without_os_errno (E : Env) (c : Closure) (w : World)
    (e : OSError) :
  os_errno E = false ->
  Popen E (cmd c) (cwd c) (use_shell c) (fs w) = SpawnOSError e ->
  exists msg,
    run_shell E c w
    = (Raise (ExcAttributeError msg),
       mkWorld (fs w) (log w ++ [LogError (MsgException e)])).
Proof.
  intros Hos HP. unfold run_shell. run_monad. rewrite HP, Hos. simpl.
  eexists. reflexivity.
Qed.

Lemma run_shell_without_os_errno_witness :
  exists msg,
    run_shell (env37_of (fails not_found)) lessc_closure empty_world
    = (Raise (ExcAttributeError msg),
       mkWorld (fs empty_world)
               (log empty_world ++ [LogError (MsgException not_found)])).
Proof.
  apply (run_shell_without_os_errno
           (env37_of (fails not_found)) lessc_closure empty_world not_found).
  - reflexivity.
  - reflexivity.
Defined.

(** [open]/[write] touches nothing but the file it is given. *)
Lemma open_write_frame (path : string) (m : Mode) (data : string)
    (fs0 fs1 : FS) :
  open_write path m data fs0 = inr fs1 ->
  dirs fs1 = dirs fs0
  /\ (forall q : string, q <> path -> files fs1 !! q = files fs0 !! q).
Proof.
  unfold open_write. intros H0.
  repeat (case_match; simplify_eq); simpl; split; try reflexivity;
    intros q Hq; apply lookup_insert_ne; congruence.
Qed.

(** [run_shell] once the process has ended with nothing on standard
    error. *)
Lemma run_shell_quiet (E : Env) (c : Closure) (w : World) (out : string)
    (rc : Z) (after : FS) :
  Popen E (cmd c) (cwd c) (use_shell c) (fs w)
    = Communicated out EmptyString rc after ->
  run_shell E c w
  = match written_text E out with
    | None => (Raise ExcUnicodeDecodeError, mkWorld after (log w))
    | Some t =>
        match open_write (output c) (mode c) t after with
        | inl e => (Raise (ExcOSError e), mkWorld after (log w))
        | inr fs1 => (Return ResNone, mkWorld fs1 (log w))
        end
    end.
Proof.
  intros HP. unfold run_shell, written_text. run_monad. rewrite HP. simpl.
  destruct (PY3 E); [destruct (decode E out)|]; simpl; try reflexivity;
    destruct (open_write _ _ _ _); reflexivity.
Qed.

(** [run_shell] when no process was started. *)
Lemma run_shell_not_run (E : Env) (c : Closure) (w : World) :
  (forall out err rc after,
     Popen E (cmd c) (cwd c) (use_shell c) (fs w)
     <> Communicated out err rc after) ->
  fs (snd (run_shell E c w)) = fs w
  /\ exists added, log (snd (run_shell E c w)) = log w ++ added.
Proof.
  intros Hno.
  destruct (Popen E (cmd c) (cwd c) (use_shell c) (fs w))
    as [e | x | out err rc after] eqn:HP.
  - unfold run_shell. run_monad. rewrite HP. simpl.
    destruct (os_errno E); simpl;
      [destruct (bool_decide (errno e = ENOENT)); simpl;
         [destruct (cmd_first (cmd c)); simpl|]|];
      (split; [reflexivity|]); rewrite <- ?app_assoc; eexists; reflexivity.
  - unfold run_shell. run_monad. rewrite HP.
    split; [reflexivity|]. exists []. symmetry. apply app_nil_r.
  - exfalso. exact (Hno out err rc after eq_refl).
Qed.

(** X3.  Whatever the spawned process did to the file system, beyond
    that [run_shell] changes no directory and no file other than its
    output file, and only ever adds to the log, however the call ends. *)
Theorem run_shell_frame (E : Env) (c : Closure) (w : World) :
  dirs (fs (snd (run_shell E c w))) = dirs (fs_after_process E c w)
  /\ (forall q : string, q <> output c ->
        files (fs (snd (run_shell E c w))) !! q
        = files (fs_after_process E c w) !! q)
  /\ exists added, log (snd (run_shell E c w)) = log w ++ added.
Proof.
  unfold fs_after_process.
  destruct (Popen E (cmd c) (cwd c) (use_shell c) (fs w))
    as [e | x | out err rc after] eqn:HP.
  - destruct (run_shell_not_run E c w) as [-> Hlog];
      [intros ? ? ? ?; rewrite HP; discriminate|auto].
  - destruct (run_shell_not_run E c w) as [-> Hlog];
      [intros ? ? ? ?; rewrite HP; discriminate|auto].
  - destruct (decide (err = EmptyString)) as [-> | Herr].
    + rewrite (run_shell_quiet E c w out rc after HP).
      destruct (written_text E out) as [t|]; simpl.
      * destruct (open_write (output c) (mode c) t after) as [e|fs1] eqn:Ho;
          simpl.
        -- split; [reflexivity|]. split; [reflexivity|].
           exists []. symmetry. apply app_nil_r.
        -- destruct (open_write_frame _ _ _ _ _ Ho) as [Hd Hf].
           split; [exact Hd|]. split; [exact Hf|].
           exists []. symmetry. apply app_nil_r.
      * split; [reflexivity|]. split; [reflexivity|].
        exists []. symmetry. apply app_nil_r.
    + unfold run_shell. run_monad. rewrite HP. simpl.
      rewrite bool_decide_eq_false_2 by exact Herr. simpl.
      split; [reflexivity|]. split; [reflexivity|]. eexists; reflexivity.
Qed.

(** Either [run_shell] leaves the file system as the process left it, or
    the process was quiet and the write went through. *)
Lemma run_shell_fs_cases (E : Env) (c : Closure) (w : World) :
  fs (snd (run_shell E c w)) = fs_after_process E c w
  \/ exists out rc t after fs1,
       Popen E (cmd c) (cwd c) (use_shell c) (fs w)
         = Communicated out EmptyString rc after
       /\ written_text E out = Some t
       /\ open_write (output c) (mode c) t after = inr fs1
       /\ run_shell E c w = (Return ResNone, mkWorld fs1 (log w)).
Proof.
  unfold fs_after_process.
  destruct (Popen E (cmd c) (cwd c) (use_shell c) (fs w))
    as [e | x | out err rc after] eqn:HP.
  - left. apply run_shell_not_run. intros ? ? ? ?. rewrite HP. discriminate.
  - left. apply run_shell_not_run. intros ? ? ? ?. rewrite HP. discriminate.
  - destruct (decide (err = EmptyString)) as [-> | Herr].
    + pose proof (run_shell_quiet E c w out rc after HP) as Hq.
      destruct (written_text E out) as [t|] eqn:Ht;
        [|left; rewrite Hq; reflexivity].
      destruct (open_write (output c) (mode c) t after) as [e|fs1] eqn:Ho;
        [left; rewrite Hq; reflexivity|].
      right. exists out, rc, t, after, fs1. auto.
    + left. unfold run_shell. run_monad. rewrite HP. simpl.
      rewrite bool_decide_eq_false_2 by exact Herr. reflexivity.
Qed.

(** X4.  What [run_shell] returns is what it logged: with [None]
    nothing was logged; a returned exception was logged first (the hint,
    if any, after it); returned standard error bytes are the one record
    logged. *)
Theorem run_shell_returns_what_it_logged (E : Env) (c : Closure)
    (w w' : World) (r : TaskResult) :
  run_shell E c w = (Return r, w') ->
  match r with
  | ResNone => log w' = log w
  | ResException e =>
      exists rest, log w' = log w ++ LogError (MsgException e) :: rest
  | ResStderr b => log w' = log w ++ [LogError (MsgBytes b)]
  end.
Proof.
  destruct (Popen E (cmd c) (cwd c) (use_shell c) (fs w))
    as [e | x | out err rc after] eqn:HP.
  - unfold run_shell. run_monad. rewrite HP. simpl.
    destruct (os_errno E); simpl; [|discriminate].
    destruct (bool_decide (errno e = ENOENT)); simpl;
      [destruct (cmd_first (cmd c)); simpl|];
      intros [= <- <-]; simpl; rewrite <- ?app_assoc; eexists; reflexivity.
  - unfold run_shell. run_monad. rewrite HP. discriminate.
  - destruct (decide (err = EmptyString)) as [-> | Herr].
    + rewrite (run_shell_quiet E c w out rc after HP).
      destruct (written_text E out); [|discriminate].
      destruct (open_write _ _ _ _); [discriminate|].
      intros [= <- <-]. reflexivity.
    + unfold run_shell. run_monad. rewrite HP. simpl.
      rewrite bool_decide_eq_false_2 by exact Herr. simpl.
      intros [= <- <-]. reflexivity.
Qed.

Lemma run_shell_returns_what_it_logged_witness :
  run_shell (env_of (fails not_found)) lessc_closure empty_world
  = (Return (ResException not_found),
     mkWorld (fs empty_world)
             [LogError (MsgException not_found);
              LogError (MsgFormat hint_format "lessc")])
  /\ exists rest,
       [LogError (MsgException not_found);
        LogError (MsgFormat hint_format "lessc")]
       = log empty_world ++ LogError (MsgException not_found) :: rest.
Proof.
  split; [reflexivity|].
  exact (run_shell_returns_what_it_logged
           (env_of (fails not_found)) lessc_closure empty_world
           (mkWorld (fs empty_world)
                    [LogError (MsgException not_found);
                     LogError (MsgFormat hint_format "lessc")])
           (ResException not_found) eq_refl).
Defined.

(** X5.  Under Python 3, a process that wrote nothing to standard error
    but whose standard output does not decode makes [run_shell] raise
    [UnicodeDecodeError]: no result is returned, nothing is logged, and
    the task writes nothing (the file system is as the process left
    it). *)
Theorem run_shell_undecodable_output (E : Env) (c : Closure) (w : World)
    (out : string) (rc : Z) (after : FS) :
  Popen E (cmd c) (cwd c) (use_shell c) (fs w)
    = Communicated out EmptyString rc after ->
  PY3 E = true -> decode E out = None ->
  run_shell E c w = (Raise ExcUnicodeDecodeError, mkWorld after (log w)).
Proof.
  intros HP H3 Hd. rewrite (run_shell_quiet E c w out rc after HP).
  unfold written_text. rewrite H3, Hd. reflexivity.
Qed.

Lemma run_shell_undecodable_output_witness :
  run_shell py3_undecodable_env lessc_closure empty_world
  = (Raise ExcUnicodeDecodeError,
     mkWorld (fs empty_world) (log empty_world)).
Proof.
  apply (run_shell_undecodable_output py3_undecodable_env lessc_closure
           empty_world "binary" 0%Z (fs empty_world)).
  - reflexivity.
  - reflexivity.
  - reflexivity.
Defined.




(** [shell] without an output path: the whole outcome. *)
Lemma shell_without_output (cmd0 : Cmd) (out0 : option string) (mode0 : Mode)
    (cwd0 : option string) (sh : bool) (w : World) :
  falsy out0 = true ->
  snd (shell cmd0 out0 mode0 cwd0 sh w) = w
  /\ forall c, fst (shell cmd0 out0 mode0 cwd0 sh w) = Return c ->
               output c = devnull.
Proof.
  intros Hf. unfold shell. run_monad. rewrite Hf. simpl.
  destruct cmd0 as [s|l|l], sh; simpl;
    try destruct (shlex_split s); simpl; split; try reflexivity;
    intros c [= <-]; reflexivity.
Qed.

(** X7.  A task made without an output path ([None] or the empty
    string) writes to the null device: making it changes nothing, and
    running it leaves the file system as the spawned process left it (as
    it was, when no process was started); the task itself writes no
    file. *)
Theorem shell_without_output_keeps_file_system (E : Env) (cmd0 : Cmd)
    (out0 : option string) (mode0 : Mode) (cwd0 : option string) (sh : bool)
    (w : World) :
  falsy out0 = true ->
  snd (shell cmd0 out0 mode0 cwd0 sh w) = w
  /\ fs (snd (shell_then_run E cmd0 out0 mode0 cwd0 sh w))
     = match fst (shell cmd0 out0 mode0 cwd0 sh w) with
       | Return c => fs_after_process E c w
       | Raise _ => fs w
       end.
Proof.
  intros Hf. destruct (shell_without_output cmd0 out0 mode0 cwd0 sh w Hf)
    as [Hw Hout].
  split; [exact Hw|].
  unfold shell_then_run, bind.
  destruct (shell cmd0 out0 mode0 cwd0 sh w) as [[c|x] w1] eqn:Hs;
    simpl in Hw; subst w1; [|reflexivity].
  specialize (Hout c eq_refl). simpl.
  destruct (run_shell_fs_cases E c w)
    as [Hsame | (out & rc & t & after & fs1 & HP & _ & Ho & Hr)];
    [exact Hsame|].
  rewrite Hr. simpl. unfold fs_after_process. rewrite HP.
  unfold open_write in Ho. rewrite Hout in Ho.
  rewrite bool_decide_eq_true_2 in Ho by reflexivity. congruence.
Qed.

Lemma shell_without_output_keeps_file_system_witness :
  let E := env_of (writes "static/site.css" "a{}" "done" EmptyString 0) in
  falsy (Some EmptyString) = true
  /\ fs (snd (shell_then_run E (CmdStr "make static") (Some EmptyString)
                             ModeW None false empty_world))
     = mkFS ∅ {[ "static/site.css" := "a{}" ]}.
Proof.
  split; [reflexivity|].
  exact (proj2 (shell_without_output_keeps_file_system
           (env_of (writes "static/site.css" "a{}" "done" EmptyString 0))
           (CmdStr "make static") (Some EmptyString) ModeW None false
           empty_world eq_refl)).
Defined.

(** X8.  [shell] is idempotent: after a call that returned a task, the
    same call returns the same task and changes nothing (the folder is
    there, so it is not made again). *)
Theorem shell_again_changes_nothing (cmd0 : Cmd) (out0 : option string)
    (mode0 : Mode) (cwd0 : option string) (sh : bool) (w w1 : World)
    (c : Closure) :
  shell cmd0 out0 mode0 cwd0 sh w = (Return c, w1) ->
  shell cmd0 out0 mode0 cwd0 sh w1 = (Return c, w1).
Proof.
  unfold shell. run_monad.
  destruct (falsy out0) eqn:Hf; simpl.
  - destruct (negb (is_list_or_tuple cmd0) && negb sh); simpl;
      [destruct cmd0; simpl; try destruct (shlex_split s); simpl|];
      intros H0; simplify_eq; reflexivity.
  - set (folder := dirname (default EmptyString out0)).
    destruct (negb (bool_decide (folder = EmptyString))) eqn:Hne; simpl.
    + destruct (isdir folder (fs w)) eqn:Hd; simpl.
      * destruct (negb (is_list_or_tuple cmd0) && negb sh); simpl;
          [destruct cmd0; simpl; try destruct (shlex_split s); simpl|];
          intros H0; simplify_eq; rewrite Hd; reflexivity.
      * unfold makedirs.
        destruct (exists_ folder (fs w)); simpl; [discriminate|].
        destruct (existsb _ _); simpl; [discriminate|].
        assert (Hin : isdir folder
                        (mkFS (dirs (fs w) ∪ {[ folder ]}
                                 ∪ list_to_set (ancestors folder))
                              (files (fs w))) = true).
        { apply bool_decide_eq_true. simpl. set_solver. }
        destruct (negb (is_list_or_tuple cmd0) && negb sh); simpl;
          [destruct cmd0; simpl; try destruct (shlex_split s); simpl|];
          intros H0; simplify_eq; simpl; rewrite Hin; reflexivity.
    + destruct (negb (is_list_or_tuple cmd0) && negb sh); simpl;
        [destruct cmd0; simpl; try destruct (shlex_split s); simpl|];
        intros H0; simplify_eq; reflexivity.
Qed.

Lemma shell_again_changes_nothing_witness :
  let c := mkClosure lessc "css/style.css" ModeW None false in
  let w1 := mkWorld (mkFS {[ "css" ]} ∅) [] in
  shell lessc (Some "css/style.css") ModeW None false empty_world
    = (Return c, w1)
  /\ shell lessc (Some "css/style.css") ModeW None false w1 = (Return c, w1).
Proof.
  assert (Hs : shell lessc (Some "css/style.css") ModeW None false empty_world
               = (Return (mkClosure lessc "css/style.css" ModeW None false),
                  mkWorld (mkFS {[ "css" ]} ∅) []))
    by (vm_compute; reflexivity).
  split; [exact Hs|].
  exact (shell_again_changes_nothing lessc (Some "css/style.css") ModeW None
           false empty_world (mkWorld (mkFS {[ "css" ]} ∅) [])
           (mkClosure lessc "css/style.css" ModeW None false) Hs).
Defined.

(** X9.  [shell] makes the output folder before it looks at the command:
    a command line that [shlex.split] rejects raises [ValueError] with the
    folder already made, and no task. *)
Theorem shell_bad_quoting_leaves_folder (s out : string) (mode0 : Mode)
    (cwd0 : option string) (w : World) (msg : string) (fs1 : FS) :
  out <> EmptyString -> dirname out <> EmptyString ->
  isdir (dirname out) (fs w) = false ->
  makedirs (dirname out) (fs w) = inr fs1 ->
  shlex_split s = inl msg ->
  shell (CmdStr s) (Some out) mode0 cwd0 false w
    = (Raise (ExcValueError msg), mkWorld fs1 (log w))
  /\ isdir (dirname out) fs1 = true.
Proof.
  intros Hout Hdir Hnd Hmk Hs. split.
  - unfold shell. run_monad.
    rewrite (bool_decide_eq_false_2 _ Hout), (bool_decide_eq_false_2 _ Hdir).
    rewrite Hnd. simpl. rewrite Hmk. simpl. rewrite Hs. reflexivity.
  - unfold makedirs in Hmk. repeat (case_match; simplify_eq).
    apply bool_decide_eq_true. simpl. set_solver.
Qed.

Lemma shell_bad_quoting_leaves_folder_witness :
  shlex_split "lessc 'style.less" = inl "No closing quotation"
  /\ isdir "css" (fs empty_world) = false
  /\ shell (CmdStr "lessc 'style.less") (Some "css/style.css") ModeW None
           false empty_world
     = (Raise (ExcValueError "No closing quotation"),
        mkWorld (mkFS {[ "css" ]} ∅) (log empty_world))
  /\ isdir "css" (mkFS {[ "css" ]} ∅) = true.
Proof.
  split; [reflexivity|]. split; [reflexivity|].
  apply (shell_bad_quoting_leaves_folder "lessc 'style.less" "css/style.css"
           ModeW None empty_world "No closing quotation"
           (mkFS {[ "css" ]} ∅)).
  - discriminate.
  - discriminate.
  - reflexivity.
  - vm_compute. reflexivity.
  - reflexivity.
Defined.

(** *** Command lines of plain words *)

Lemma chars_append (a b : string) : chars (a +:+ b) = chars a ++ chars b.
Proof.
  unfold chars. induction a as [|c a IH]; simpl; [reflexivity|].
  rewrite IH. reflexivity.
Qed.

Lemma append_snoc (tok : string) (c : ascii) (s : string) :
  snoc tok c +:+ s = tok +:+ String c s.
Proof.
  unfold snoc. induction tok as [|x tok IH]; [reflexivity|].
  change (String x ((tok +:+ String c EmptyString) +:+ s)
          = String x (tok +:+ String c s)).
  rewrite IH. reflexivity.
Qed.

(** Inside a word, plain characters are appended to the token. *)
Lemma read_tokens_word (cs rest : list ascii) (tok : string) :
  forallb plain_char cs = true ->
  read_tokens StWord tok (cs ++ rest)
  = read_tokens StWord (tok +:+ text cs) rest.
Proof.
  revert tok. induction cs as [|c cs IH]; intros tok Hcs.
  - assert (Hnil : tok +:+ text [] = tok).
    { clear. induction tok as [|x tok IH]; [reflexivity|].
      change (String x (tok +:+ text []) = String x tok). rewrite IH.
      reflexivity. }
    rewrite Hnil. reflexivity.
  - simpl in Hcs. apply andb_true_iff in Hcs as [Hc Hcs].
    unfold plain_char in Hc.
    apply andb_true_iff in Hc as [Hc He].
    apply andb_true_iff in Hc as [Hw Hq].
    apply negb_true_iff in Hw, Hq, He.
    simpl. rewrite Hw, Hq, He. rewrite (IH _ Hcs).
    f_equal. apply append_snoc.
Qed.

(** Between tokens, a plain word is read whole. *)
Lemma read_tokens_plain_word (w : string) (rest : list ascii) :
  plain_word w = true ->
  read_tokens StWhite EmptyString (chars w ++ rest)
  = read_tokens StWord w rest.
Proof.
  unfold plain_word. intros [Hne Hcs]%andb_true_iff.
  apply negb_true_iff, bool_decide_eq_false in Hne.
  destruct w as [|c w]; [done|]. clear Hne.
  change (chars (String c w)) with (c :: chars w) in *.
  simpl in Hcs. apply andb_true_iff in Hcs as [Hc Hcs].
  unfold plain_char in Hc.
  apply andb_true_iff in Hc as [Hc He].
  apply andb_true_iff in Hc as [Hw Hq].
  apply negb_true_iff in Hw, Hq, He.
  simpl. rewrite Hw, Hq, He.
  rewrite (read_tokens_word (chars w) rest _ Hcs). simpl.
  unfold text, chars. rewrite string_of_list_ascii_of_string. reflexivity.
Qed.

(** A blank ends the word. *)
Lemma read_tokens_blank (tok : string) (more : list ascii) :
  read_tokens StWord tok (" "%char :: more)
  = match read_tokens StWhite EmptyString more with
    | inl msg => inl msg
    | inr toks => inr (tok :: toks)
    end.
Proof. reflexivity. Qed.

Lemma shlex_split_plain_words (ws : list string) :
  Forall (fun w => plain_word w = true) ws ->
  shlex_split (join_words ws) = inr ws.
Proof.
  unfold shlex_split.
  induction ws as [|w [|w' rest] IH]; intros Hall.
  - reflexivity.
  - simpl join_words. rewrite <- (app_nil_r (chars w)).
    rewrite (read_tokens_plain_word w [] (Forall_inv Hall)). reflexivity.
  - change (join_words (w :: w' :: rest))
      with (w +:+ " " +:+ join_words (w' :: rest)).
    rewrite chars_append.
    rewrite (read_tokens_plain_word w _ (Forall_inv Hall)).
    change (chars (" " +:+ join_words (w' :: rest)))
      with (" "%char :: chars (join_words (w' :: rest))).
    rewrite read_tokens_blank, (IH (Forall_inv_tail Hall)). reflexivity.
Qed.

(** X10.  For plain words (non-empty, free of white space, quotes and
    backslashes) and the shell flag off, the command line made of the
    words separated by single blanks is the same command as the list of
    the words: [shell] returns the same task for both. *)
Theorem shell_line_of_plain_words (ws : list string) (out0 : option string)
    (mode0 : Mode) (cwd0 : option string) (w : World) :
  Forall (fun x => plain_word x = true) ws ->
  shell (CmdStr (join_words ws)) out0 mode0 cwd0 false w
  = shell (CmdList ws) out0 mode0 cwd0 false w.
Proof.
  intros Hall. unfold shell. simpl.
  rewrite (shlex_split_plain_words ws Hall). reflexivity.
Qed.

Lemma shell_line_of_plain_words_witness :
  Forall (fun x => plain_word x = true) ["lessc"; "--no-color"; "style.less"]
  /\ shell (CmdStr "lessc --no-color style.less") None ModeW None false
           empty_world
     = shell (CmdList ["lessc"; "--no-color"; "style.less"]) None ModeW None
             false empty_world.
Proof.
  assert (Hall : Forall (fun x => plain_word x = true)
                        ["lessc"; "--no-color"; "style.less"])
    by (repeat constructor).
  split; [exact Hall|].
  exact (shell_line_of_plain_words ["lessc"; "--no-color"; "style.less"]
           None ModeW None empty_world Hall).
Defined.

End ShellMore.

(* ===================================================================== *)
(** ** More about [transform_first_chunk]                                *)
(* ===================================================================== *)

Module InjectMore.

Import OS Inject InjectFacts Aux.
Local Open Scope list_scope.

(** A letter is no white space, no sign and no digit. *)
Lemma letter_not_space (c : ascii) :
  ascii_letter c = true -> is_space c = false.
Proof.
  destruct c as [[] [] [] [] [] [] [] []]; vm_compute; congruence.
Qed.

Lemma letter_not_digit (c : ascii) :
  ascii_letter c = true -> digit_of c = None.
Proof.
  destruct c as [[] [] [] [] [] [] [] []]; vm_compute; congruence.
Qed.

Lemma letter_not_sign (c : ascii) :
  ascii_letter c = true -> c <> "-"%char /\ c <> "+"%char.
Proof.
  destruct c as [[] [] [] [] [] [] [] []]; vm_compute; intros H;
    split; congruence.
Qed.

(** Stripping white space keeps the letters. *)
Lemma drop_while_keeps_letter (l : list ascii) :
  existsb ascii_letter l = true ->
  existsb ascii_letter (drop_while is_space l) = true.
Proof.
  induction l as [|c l IH]; simpl; [auto|].
  destruct (is_space c) eqn:Hs; [|auto].
  intros H. apply orb_true_iff in H as [H|H]; [|auto].
  rewrite (letter_not_space c H) in Hs. discriminate.
Qed.

Lemma existsb_rev_letter (l : list ascii) :
  existsb ascii_letter (rev l) = existsb ascii_letter l.
Proof.
  induction l as [|c l IH]; simpl; [reflexivity|].
  rewrite existsb_app, IH. simpl. rewrite orb_false_r. apply orb_comm.
Qed.

Lemma rstrip_keeps_letter (l : list ascii) :
  existsb ascii_letter l = true ->
  existsb ascii_letter (rstrip is_space l) = true.
Proof.
  intros H. unfold rstrip. rewrite existsb_rev_letter.
  apply drop_while_keeps_letter. rewrite existsb_rev_letter. exact H.
Qed.

(** Digits stop at a letter. *)
Lemma digits_value_letter (l : list ascii) (acc : Z) :
  existsb ascii_letter l = true -> digits_value acc l = None.
Proof.
  revert acc. induction l as [|c l IH]; simpl; intros acc H; [discriminate|].
  destruct (digit_of c) eqn:Hd; [|reflexivity].
  apply orb_true_iff in H as [H|H]; [|auto].
  rewrite (letter_not_digit c H) in Hd. discriminate.
Qed.

(** [int()] rejects a value with a letter in it. *)
Lemma py_int_letter (v : string) : has_letter v = true -> py_int v = None.
Proof.
  unfold has_letter, py_int. intros H.
  apply drop_while_keeps_letter, rstrip_keeps_letter in H.
  destruct (rstrip is_space (drop_while is_space (chars v))) as [|c ds];
    [discriminate|].
  assert (Hds : (c = "-"%char \/ c = "+"%char) ->
                existsb ascii_letter ds = true).
  { intros Hc. simpl in H. apply orb_true_iff in H as [H|H]; [|exact H].
    destruct (letter_not_sign c H) as [Hm Hp]. destruct Hc; contradiction. }
  destruct (bool_decide (c = "-"%char)) eqn:Hm.
  - apply bool_decide_eq_true in Hm. specialize (Hds (or_introl Hm)).
    destruct ds; [discriminate|].
    rewrite (digits_value_letter _ 0 Hds). reflexivity.
  - destruct (bool_decide (c = "+"%char)) eqn:Hp.
    + apply bool_decide_eq_true in Hp. specialize (Hds (or_intror Hp)).
      destruct ds; [discriminate|].
      exact (digits_value_letter _ 0 Hds).
    + exact (digits_value_letter _ 0 H).
Qed.

(** X11.  A Content-Length header whose value has an ASCII letter in it,
    which no [int()] reads, matters only when the chunk holds the marker:
    then [int()] raises [ValueError] and nothing is returned; without the
    marker the header is not read and the triple comes back as it was. *)
Theorem transform_malformed_content_length (script : bytes) (status_code : Z)
    (headers : Headers) (chunk : bytes) (finishing : bool) (v : string) :
  headers !! "Content-Length" = Some v -> has_letter v = true ->
  (contains HEAD_END chunk = true ->
     exists msg,
       transform_first_chunk script status_code headers chunk finishing
       = Raise (ExcValueError msg))
  /\ (contains HEAD_END chunk = false ->
        transform_first_chunk script status_code headers chunk finishing
        = Return (status_code, headers, chunk)).
Proof.
  intros Hv Hint. apply py_int_letter in Hint.
  unfold transform_first_chunk. split; intros ->.
  - rewrite Hv, Hint. eexists. reflexivity.
  - reflexivity.
Qed.

Lemma transform_malformed_content_length_witness :
  has_letter "chunked" = true
  /\ (exists msg,
        transform_first_chunk (list_byte_of_string "<S>") 200
          {[ "Content-Length" := "chunked" ]}
          (list_byte_of_string "<head></head>") true
        = Raise (ExcValueError msg))
  /\ transform_first_chunk (list_byte_of_string "<S>") 200
       {[ "Content-Length" := "chunked" ]}
       (list_byte_of_string "<body></body>") true
     = Return (200%Z, {[ "Content-Length" := "chunked" ]},
               list_byte_of_string "<body></body>").
Proof.
  pose proof (transform_malformed_content_length
                (list_byte_of_string "<S>") 200
                {[ "Content-Length" := "chunked" ]}) as Hthm.
  split; [reflexivity|]. split.
  - exact (proj1 (Hthm (list_byte_of_string "<head></head>") true "chunked"
                    eq_refl eq_refl) eq_refl).
  - exact (proj2 (Hthm (list_byte_of_string "<body></body>") true "chunked"
                    eq_refl eq_refl) eq_refl).
Defined.

(** [transform_first_chunk] on a chunk given by its clean segments. *)
Lemma transform_on_segments (script : bytes) (status_code : Z)
    (headers : Headers) (segs : list bytes) (finishing : bool) :
  Forall clean segs -> 2 <= List.length segs ->
  transform_first_chunk script status_code headers (join HEAD_END segs)
                        finishing
  = match headers !! "Content-Length" with
    | Some v =>
        match py_int v with
        | Some n =>
            Return (status_code,
                    <[ "Content-Length" :=
                         py_str (n + Z.of_nat (List.length script)) ]> headers,
                    join (script ++ HEAD_END) segs)
        | None => Raise (ExcValueError "invalid literal for int()")
        end
    | None => Return (status_code, headers, join (script ++ HEAD_END) segs)
    end.
Proof.
  intros Hall Hlen. unfold transform_first_chunk.
  rewrite (contains_join segs Hall), bool_decide_eq_true_2 by exact Hlen.
  rewrite replace_join; [reflexivity | | exact Hall].
  intros ->. simpl in Hlen. lia.
Qed.

(** X12.  A Content-Length that was the length of the chunk is the
    length of the new chunk only when the chunk has exactly one marker:
    the header grows by one script length, the chunk by one script length
    per marker, so with more markers and a non-empty script the header
    falls short of the body. *)
Theorem transform_content_length_and_body (script : bytes) (status_code : Z)
    (headers : Headers) (segs : list bytes) (finishing : bool) (v : string) :
  Forall clean segs -> 2 <= List.length segs ->
  headers !! "Content-Length" = Some v ->
  py_int v = Some (Z.of_nat (List.length (join HEAD_END segs))) ->
  exists (h' : Headers) (c' : bytes) (v' : string) (n' : Z),
    transform_first_chunk script status_code headers (join HEAD_END segs)
                          finishing
    = Return (status_code, h', c')
    /\ h' !! "Content-Length" = Some v' /\ py_int v' = Some n'
    /\ n' = Z.of_nat (List.length (join HEAD_END segs) + List.length script)
    /\ List.length c'
       = List.length (join HEAD_END segs)
         + (List.length segs - 1) * List.length script
    /\ (List.length segs = 2 -> n' = Z.of_nat (List.length c'))
    /\ (2 < List.length segs -> script <> [] ->
          (n' < Z.of_nat (List.length c'))%Z).
Proof.
  intros Hall Hlen Hv Hint.
  rewrite (transform_on_segments script status_code headers segs finishing
             Hall Hlen), Hv, Hint.
  eexists _, _, _, _. split; [reflexivity|].
  split; [apply lookup_insert_eq|]. split; [apply py_int_py_str|].
  assert (Hnew : List.length (join (script ++ HEAD_END) segs)
                 = List.length (join HEAD_END segs)
                   + (List.length segs - 1) * List.length script).
  { rewrite !length_join, length_app. nia. }
  split; [lia|]. split; [exact Hnew|]. split.
  - intros H2. rewrite Hnew, H2. simpl. lia.
  - intros H3 Hs. rewrite Hnew.
    assert (0 < List.length script) by (destruct script; [done | simpl; lia]).
    nia.
Qed.

Lemma transform_content_length_and_body_witness :
  let b := list_byte_of_string in
  let segs := [b "<head>"; b "<body>"; b "</body>"] in
  Forall clean segs
  /\ py_int "33" = Some (Z.of_nat (List.length (join HEAD_END segs)))
  /\ exists (h' : Headers) (c' : bytes) (v' : string) (n' : Z),
       transform_first_chunk (b "<S>") 200 {[ "Content-Length" := "33" ]}
                             (join HEAD_END segs) true
       = Return (200%Z, h', c')
       /\ h' !! "Content-Length" = Some v' /\ py_int v' = Some n'
       /\ n' = 36%Z /\ List.length c' = 39.
Proof.
  assert (Hall : Forall clean
                   [list_byte_of_string "<head>"; list_byte_of_string "<body>";
                    list_byte_of_string "</body>"])
    by (repeat constructor).
  split; [exact Hall|]. split; [reflexivity|].
  destruct (transform_content_length_and_body
              (list_byte_of_string "<S>") 200
              {[ "Content-Length" := "33" ]}
              [list_byte_of_string "<head>"; list_byte_of_string "<body>";
               list_byte_of_string "</body>"]
              true "33" Hall ltac:(simpl; lia) eq_refl eq_refl)
    as (h' & c' & v' & n' & Ht & Hh & Hp & Hn & Hc & _ & _).
  exists h', c', v', n'. repeat split; assumption.
Defined.

(** X13.  Whenever [transform_first_chunk] returns, the status code is
    the one given, every header other than Content-Length is as it was,
    Content-Length is present after exactly when it was before, and the
    [finishing] flag plays no part. *)
Theorem transform_frame (script : bytes) (status_code : Z)
    (headers : Headers) (chunk : bytes) (finishing : bool)
    (s' : Z) (h' : Headers) (c' : bytes) :
  transform_first_chunk script status_code headers chunk finishing
    = Return (s', h', c') ->
  s' = status_code
  /\ (forall k : string, k <> "Content-Length" -> h' !! k = headers !! k)
  /\ (is_Some (h' !! "Content-Length") <-> is_Some (headers !! "Content-Length"))
  /\ transform_first_chunk script status_code headers chunk (negb finishing)
     = Return (s', h', c').
Proof.
  unfold transform_first_chunk.
  destruct (contains HEAD_END chunk).
  - destruct (headers !! "Content-Length") as [v|] eqn:Hv.
    + destruct (py_int v) as [n|]; [|discriminate].
      intros [= <- <- <-]. split; [reflexivity|]. split; [|split].
      * intros k Hk. apply lookup_insert_ne. congruence.
      * rewrite lookup_insert_eq. split; eauto.
      * reflexivity.
    + intros [= <- <- <-]. rewrite Hv. repeat split; auto.
  - intros [= <- <- <-]. repeat split; auto.
Qed.

Lemma transform_frame_witness :
  let b := list_byte_of_string in
  let headers : Headers :=
    {[ "Content-Length" := "13"; "Content-Type" := "text/html" ]} in
  exists (h' : Headers) (c' : bytes),
    transform_first_chunk (b "<S>") 200 headers (b "<head></head>") false
    = Return (200%Z, h', c')
    /\ h' !! "Content-Type" = Some "text/html"
    /\ is_Some (h' !! "Content-Length").
Proof.
  simpl.
  destruct (transform_first_chunk (list_byte_of_string "<S>") 200
              {[ "Content-Length" := "13"; "Content-Type" := "text/html" ]}
              (list_byte_of_string "<head></head>") false)
    as [[[s' h'] c']|x] eqn:Ht; [|vm_compute in Ht; discriminate Ht].
  destruct (transform_frame _ _ _ _ _ _ _ _ Ht) as (-> & Hk & Hcl & _).
  exists h', c'. split; [reflexivity|]. split.
  - rewrite (Hk "Content-Type" ltac:(discriminate)). vm_compute. reflexivity.
  - apply Hcl. vm_compute. eauto.
Defined.

(** X14.  Whenever [transform_first_chunk] returns, the chunk it returns
    holds the marker exactly when the chunk given did, is never shorter,
    and with an empty script is the chunk given. *)
Theorem transform_keeps_marker (script : bytes) (status_code : Z)
    (headers : Headers) (chunk : bytes) (finishing : bool)
    (s' : Z) (h' : Headers) (c' : bytes) :
  transform_first_chunk script status_code headers chunk finishing
    = Return (s', h', c') ->
  contains HEAD_END c' = contains HEAD_END chunk
  /\ List.length chunk <= List.length c'
  /\ (script = [] -> c' = chunk).
Proof.
  destruct (chunk_segments chunk) as (segs & Hne & Hall & ->).
  pose proof (contains_join segs Hall) as Hc.
  destruct (decide (2 <= List.length segs)) as [Hlen | Hlen].
  - rewrite (transform_on_segments script status_code headers segs finishing
               Hall Hlen).
    assert (Hbody : contains HEAD_END (join (script ++ HEAD_END) segs)
                    = contains HEAD_END (join HEAD_END segs)
                    /\ List.length (join HEAD_END segs)
                       <= List.length (join (script ++ HEAD_END) segs)
                    /\ (script = [] ->
                        join (script ++ HEAD_END) segs = join HEAD_END segs)).
    { split; [|split].
      - rewrite Hc, bool_decide_eq_true_2 by exact Hlen.
        destruct segs as [|s [|s2 rest]]; simpl in Hlen; try lia.
        rewrite join_cons2, <- app_assoc, (app_assoc s script).
        apply contains_app_r.
      - rewrite !length_join, length_app. nia.
      - intros ->. reflexivity. }
    destruct (headers !! "Content-Length") as [v|];
      [destruct (py_int v); [|discriminate]|];
      intros [= <- <- <-]; exact Hbody.
  - unfold transform_first_chunk.
    rewrite Hc, bool_decide_eq_false_2 by exact Hlen.
    intros [= <- <- <-].
    split; [rewrite Hc; apply bool_decide_eq_false_2; exact Hlen|].
    split; [lia | reflexivity].
Qed.

Lemma transform_keeps_marker_witness :
  let b := list_byte_of_string in
  exists (s' : Z) (h' : Headers) (c' : bytes),
    transform_first_chunk (b "<S>") 200 ∅ (b "<head></head>") false
    = Return (s', h', c')
    /\ contains HEAD_END c' = contains HEAD_END (b "<head></head>")
    /\ List.length (b "<head></head>") <= List.length c'.
Proof.
  simpl.
  destruct (transform_first_chunk (list_byte_of_string "<S>") 200 ∅
              (list_byte_of_string "<head></head>") false)
    as [[[s' h'] c']|x] eqn:Ht; [|vm_compute in Ht; discriminate Ht].
  destruct (transform_keeps_marker _ _ _ _ _ _ _ _ Ht) as (Hm & Hl & _).
  exists s', h', c'. auto.
Defined.

End InjectMore.

(* ===================================================================== *)
(** ** More about [BaseServer] and [Server]                              *)
(* ===================================================================== *)

Module ServerMore.

Import Shell Watch Inject Server ServerFacts.
Local Open Scope list_scope.

(** X15.  A plain [BaseServer] cannot serve: [serve] prints its banner,
    points [LiveReloadHandler] at the watcher, then raises out of
    [application] ([AttributeError] for the missing [self.app] when
    [debug] is [None], [NotImplementedError] from [get_web_handlers]
    otherwise); no application listens, nothing is appended to the
    watcher, the loop is not started. *)
Theorem base_server_cannot_serve (self : Self) (port : Z)
    (liveport : option Z) (host root_arg : option string)
    (debug : option bool) (open_url : bool) (restart_delay : Delay)
    (loop_end : LoopEnd) (p : Proc) :
  class self = BaseServerClass ->
  (exists x,
     fst (serve self port liveport host root_arg debug open_url restart_delay
                loop_end p) = Raise x
     /\ match debug with
        | None => exists msg, x = ExcAttributeError msg
        | Some _ => x = ExcNotImplementedError
        end)
  /\ snd (serve self port liveport host root_arg debug open_url restart_delay
               loop_end p)
     = set_handler_watcher (watcher self)
         (add_printed ("Serving on http://" +:+ or_default host "0.0.0.0"
                         +:+ ":" +:+ py_str port) p).
Proof.
  intros Hc. unfold serve, application.
  set (self1 := match root_arg with
                | Some r => mkSelf (class self) (app self) (Some r) (watcher self)
                | None => self
                end).
  assert (Hc1 : class self1 = BaseServerClass) by (destruct root_arg; exact Hc).
  assert (Hw1 : watcher self1 = watcher self) by (destruct root_arg; reflexivity).
  unfold bind, modify, get_app, get_web_handlers, raise, ret.
  rewrite Hc1, Hw1. destruct debug; simpl; split; eauto.
Qed.

Lemma base_server_cannot_serve_witness :
  class Fixtures.base_server0 = BaseServerClass
  /\ (exists x,
        fst (serve Fixtures.base_server0 5500 None None None (Some true) false
                   (DelaySeconds 2) LoopReturned Fixtures.proc0) = Raise x
        /\ x = ExcNotImplementedError)
  /\ listeners (snd (serve Fixtures.base_server0 5500 None None None
                           (Some true) false (DelaySeconds 2) LoopReturned
                           Fixtures.proc0)) = [].
Proof.
  destruct (base_server_cannot_serve Fixtures.base_server0 5500 None None
              None (Some true) false (DelaySeconds 2) LoopReturned
              Fixtures.proc0 eq_refl) as [Hx Hs].
  split; [reflexivity|]. split; [exact Hx|]. rewrite Hs. reflexivity.
Defined.

(** X16.  Of the applications [application] sets up for a [Server], the
    one serving content runs in the debug mode asked for, and by default
    in debug mode exactly when a WSGI application is set, and it alone
    carries the script transform; the separate reload-channel application
    of a split server never runs in debug mode and injects nothing. *)
Theorem application_debug_and_transforms (self : Self) (port : Z)
    (host : string) (liveport : option Z) (debug : option bool) (p : Proc) :
  class self = ServerClass -> is_ascii host = true ->
  exists (content : Listener) (live : list Listener),
    listeners (snd (application self port host liveport debug p))
    = listeners p ++ content :: live
    /\ Server.debug (application_of content)
       = match debug with
         | Some b => Some b
         | None => if bool_decide (is_Some (app self)) then Some true else None
         end
    /\ transforms (application_of content)
       = [list_byte_of_string (script_text host (default port liveport))]
    /\ Forall (fun l => Server.debug (application_of l) = Some false
                        /\ transforms (application_of l) = []
                        /\ handlers (application_of l) = live_handlers) live
    /\ List.length live
       = (if bool_decide (default port liveport = port) then 0 else 1).
Proof.
  intros Hc Hh.
  pose proof (application_server self port host liveport debug p Hc Hh) as Ha.
  simpl in Ha. rewrite Ha. simpl.
  destruct (bool_decide (default port liveport = port)); simpl;
    eexists _, _; (split; [reflexivity|]); simpl;
    (split; [destruct debug; reflexivity|]); (split; [reflexivity|]);
    split; try reflexivity; repeat constructor.
Qed.

Lemma application_debug_and_transforms_witness :
  class Fixtures.server0 = ServerClass /\ is_ascii "localhost" = true
  /\ exists (content : Listener) (live : list Listener),
       listeners (snd (application Fixtures.server0 5500 "localhost"
                                   (Some 35729%Z) (Some true) Fixtures.proc0))
       = listeners Fixtures.proc0 ++ content :: live
       /\ Server.debug (application_of content) = Some true
       /\ Forall (fun l => Server.debug (application_of l) = Some false
                           /\ transforms (application_of l) = []
                           /\ handlers (application_of l) = live_handlers) live
       /\ List.length live = 1.
Proof.
  split; [reflexivity|]. split; [reflexivity|].
  destruct (application_debug_and_transforms Fixtures.server0 5500 "localhost"
              (Some 35729%Z) (Some true) Fixtures.proc0 eq_refl eq_refl)
    as (content & live & Hl & Hd & _ & Hlive & Hn).
  exists content, live. auto.
Defined.

(** [serve] on a [Server] with an ASCII host name, in full. *)
Lemma serve_server_full (self : Self) (port : Z) (liveport : option Z)
    (host root_arg : option string) (debug : option bool) (open_url : bool)
    (restart_delay : Delay) (loop_end : LoopEnd) (p : Proc) :
  class self = ServerClass -> is_ascii (or_default host "0.0.0.0") = true ->
  let host' := or_default host "0.0.0.0" in
  let self' := match root_arg with
               | Some r => mkSelf (class self) (app self) (Some r) (watcher self)
               | None => self
               end in
  let url := "http://" +:+ host' +:+ ":" +:+ py_str port in
  serve self port liveport host root_arg debug open_url restart_delay
        loop_end p
  = (Return self',
     mkProc (world p)
            (alter (append_change (special_path, restart_delay))
                   (watcher self) (heap p))
            (Some (watcher self))
            (listeners
               (snd (application self' port host' liveport debug
                       (add_printed ("Serving on " +:+ url) p))))
            ((printed p ++ ["Serving on " +:+ url])
               ++ match loop_end with
                  | LoopInterrupted => ["Shutting down..."]
                  | LoopReturned => []
                  end)
            true
            (threads p ++ if open_url then [OpenerThread url] else [])
            true).
Proof.
  intros Hc Hh. simpl. unfold serve.
  set (self1 := match root_arg with
                | Some r => mkSelf (class self) (app self) (Some r) (watcher self)
                | None => self
                end).
  assert (Hc1 : class self1 = ServerClass) by (destruct root_arg; exact Hc).
  assert (Hw1 : watcher self1 = watcher self) by (destruct root_arg; reflexivity).
  unfold bind at 1. unfold modify at 1. unfold bind at 1.
  rewrite (application_server self1 port (or_default host "0.0.0.0") liveport
             debug _ Hc1 Hh).
  rewrite Hw1. destruct open_url, loop_end; run_proc;
    unfold set_heap, add_thread, add_printed, set_level_info,
      set_ioloop_started; simpl; rewrite ?app_nil_r; reflexivity.
Qed.

(** X17.  [serve] on a [Server] without a WSGI application serves static
    files on the port, at the host, from the [root] it is given; without
    one, from the root set before; and from [.] when there is none or it
    is empty.  The root given is kept on the instance. *)
Theorem serve_static_root (self : Self) (port : Z) (liveport : option Z)
    (host root_arg : option string) (debug : option bool) (open_url : bool)
    (restart_delay : Delay) (loop_end : LoopEnd) (p : Proc) :
  class self = ServerClass -> app self = None ->
  is_ascii (or_default host "0.0.0.0") = true ->
  exists (self' : Self) (p1 : Proc) (l : Listener),
    serve self port liveport host root_arg debug open_url restart_delay
          loop_end p = (Return self', p1)
    /\ root self' = match root_arg with Some r => Some r | None => root self end
    /\ l ∈ listeners p1
    /\ Server.port l = port /\ address l = or_default host "0.0.0.0"
    /\ ("/(.*)",
        StaticFileHandler
          (or_default (match root_arg with Some r => Some r | None => root self end)
                      ".")
          "index.html") ∈ handlers (application_of l).
Proof.
  intros Hc Happ Hh.
  pose proof (serve_server_full self port liveport host root_arg debug open_url
                restart_delay loop_end p Hc Hh) as Hs. simpl in Hs.
  set (self1 := match root_arg with
                | Some r => mkSelf (class self) (app self) (Some r) (watcher self)
                | None => self
                end) in *.
  assert (Hc1 : class self1 = ServerClass) by (destruct root_arg; exact Hc).
  assert (Ha1 : app self1 = None) by (destruct root_arg; exact Happ).
  assert (Hr1 : root self1
                = match root_arg with Some r => Some r | None => root self end)
    by (destruct root_arg; reflexivity).
  rewrite (application_server self1 port _ liveport debug _ Hc1 Hh) in Hs.
  simpl in Hs. rewrite Ha1 in Hs. rewrite Hs. rewrite <- Hr1.
  destruct (bool_decide (default port liveport = port)); simpl.
  - eexists _, _, _. split; [reflexivity|]. split; [reflexivity|].
    split; [apply elem_of_app; right; left|].
    simpl. split; [reflexivity|]. split; [reflexivity|].
    repeat constructor.
  - eexists _, _, _. split; [reflexivity|]. split; [reflexivity|].
    split; [apply elem_of_app; right; left|].
    simpl. split; [reflexivity|]. split; [reflexivity|]. left.
Qed.

Lemma serve_static_root_witness :
  class Fixtures.server0 = ServerClass /\ app Fixtures.server0 = None
  /\ exists (self' : Self) (p1 : Proc) (l : Listener),
       serve Fixtures.server0 5500 None None (Some "site") None false
             (DelaySeconds 2) LoopReturned Fixtures.proc0 = (Return self', p1)
       /\ root self' = Some "site"
       /\ l ∈ listeners p1
       /\ Server.port l = 5500%Z /\ address l = "0.0.0.0"
       /\ ("/(.*)", StaticFileHandler "site" "index.html")
            ∈ handlers (application_of l).
Proof.
  split; [reflexivity|]. split; [reflexivity|].
  exact (serve_static_root Fixtures.server0 5500 None None (Some "site") None
           false (DelaySeconds 2) LoopReturned Fixtures.proc0
           eq_refl eq_refl eq_refl).
Defined.

(** [serve] returns on a [Server] with an ASCII host name only. *)
Lemma serve_returns_server (self : Self) (port : Z) (liveport : option Z)
    (host root_arg : option string) (debug : option bool) (open_url : bool)
    (restart_delay : Delay) (loop_end : LoopEnd) (p p1 : Proc)
    (self' : Self) :
  serve self port liveport host root_arg debug open_url restart_delay
        loop_end p = (Return self', p1) ->
  class self = ServerClass /\ is_ascii (or_default host "0.0.0.0") = true.
Proof.
  unfold serve, application. intros H.
  destruct (class self) eqn:Hc.
  - exfalso. destruct root_arg, debug, (app self); run_proc;
      rewrite ?Hc in H; simpl in H; discriminate H.
  - split; [reflexivity|].
    destruct (is_ascii (or_default host "0.0.0.0")) eqn:Hh; [reflexivity|].
    exfalso.
    assert (Hs : forall lp, is_ascii (script_text (or_default host "0.0.0.0")
                                              lp) = false).
    { intros lp. unfold script_text. rewrite !is_ascii_append, Hh.
      rewrite ?andb_false_r, ?andb_false_l. simpl.
      rewrite ?andb_false_r. reflexivity. }
    destruct root_arg, debug, (app self) eqn:Ha; run_proc;
      rewrite ?Hc, ?Ha, ?Hs in H; simpl in H; rewrite ?Hs in H; simpl in H;
      discriminate H.
Qed.

(** X18.  Whenever [serve] returns, the loop having stopped or
    [KeyboardInterrupt] having come out of it: it has printed the banner
    with the host (0.0.0.0 when none or an empty one is given) and the
    content port, set the logger to INFO, started the browser thread for
    that same address exactly when [open_url] is set, and, exactly when
    the loop ended on [KeyboardInterrupt], printed the shutdown line
    last. *)
Theorem serve_prints_and_opens (self : Self) (port : Z) (liveport : option Z)
    (host root_arg : option string) (debug : option bool) (open_url : bool)
    (restart_delay : Delay) (loop_end : LoopEnd) (p p1 : Proc)
    (self' : Self) :
  serve self port liveport host root_arg debug open_url restart_delay
        loop_end p = (Return self', p1) ->
  printed p1
  = printed p
      ++ ("Serving on http://" +:+ or_default host "0.0.0.0" +:+ ":"
            +:+ py_str port)
      :: match loop_end with
         | LoopInterrupted => ["Shutting down..."]
         | LoopReturned => []
         end
  /\ threads p1
     = threads p
         ++ (if open_url
             then [OpenerThread ("http://" +:+ or_default host "0.0.0.0"
                                   +:+ ":" +:+ py_str port)]
             else [])
  /\ level_info p1 = true.
Proof.
  intros Hret.
  destruct (serve_returns_server _ _ _ _ _ _ _ _ _ _ _ _ Hret) as [Hc Hh].
  pose proof (serve_server_full self port liveport host root_arg debug open_url
                restart_delay loop_end p Hc Hh) as Hs. simpl in Hs.
  rewrite Hs in Hret. injection Hret as _ <-. simpl.
  rewrite <- app_assoc. auto.
Qed.

Lemma serve_prints_and_opens_witness :
  let p1 := snd (serve Fixtures.server0 5500 (Some 35729%Z) None None None
                       true (DelaySeconds 2) LoopInterrupted Fixtures.proc0) in
  fst (serve Fixtures.server0 5500 (Some 35729%Z) None None None true
             (DelaySeconds 2) LoopInterrupted Fixtures.proc0)
    = Return Fixtures.server0
  /\ printed p1 = ["Serving on http://0.0.0.0:5500"; "Shutting down..."]
  /\ threads p1 = [OpenerThread "http://0.0.0.0:5500"]
  /\ level_info p1 = true.
Proof.
  split; [reflexivity|].
  exact (serve_prints_and_opens Fixtures.server0 5500 (Some 35729%Z) None None
           None true (DelaySeconds 2) LoopInterrupted Fixtures.proc0
           (snd (serve Fixtures.server0 5500 (Some 35729%Z) None None None
                       true (DelaySeconds 2) LoopInterrupted Fixtures.proc0))
           Fixtures.server0 eq_refl).
Defined.

(** X19.  A [Server] made without a watcher and served at once: a new
    watcher object is created, none of the existing ones is touched, and
    when the loop starts the new one holds no entry and one change, the
    special one; it is the watcher [LiveReloadHandler] polls. *)
Theorem new_server_serve (wsgi_app : option WSGIApp) (port : Z)
    (liveport : option Z) (host root_arg : option string)
    (debug : option bool) (open_url : bool) (restart_delay : Delay)
    (loop_end : LoopEnd) (p : Proc) :
  is_ascii (or_default host "0.0.0.0") = true ->
  exists (self' : Self) (p1 : Proc),
    bind (init ServerClass wsgi_app None)
         (fun s => serve s port liveport host root_arg debug open_url
                         restart_delay loop_end) p
    = (Return self', p1)
    /\ heap p !! watcher self' = None
    /\ heap p1 !! watcher self'
       = Some (mkWatcher [] [(special_path, restart_delay)] ∅)
    /\ (forall r, r <> watcher self' -> heap p1 !! r = heap p !! r)
    /\ LiveReloadHandler_watcher p1 = Some (watcher self').
Proof.
  intros Hh. unfold bind at 1. unfold init. run_proc.
  set (r := fresh (dom (heap p))).
  set (s := mkSelf ServerClass wsgi_app None r).
  set (p0 := set_heap (insert r empty_watcher) p).
  pose proof (serve_server_full s port liveport host root_arg debug open_url
                restart_delay loop_end p0 eq_refl Hh) as Hs.
  simpl in Hs. rewrite Hs. eexists _, _. split; [reflexivity|].
  assert (Hw : watcher (match root_arg with
                        | Some r0 => mkSelf ServerClass wsgi_app (Some r0) r
                        | None => s
                        end) = r) by (destruct root_arg; reflexivity).
  rewrite Hw. simpl. split; [|split; [|split]].
  - apply not_elem_of_dom. apply is_fresh.
  - rewrite lookup_alter_eq, lookup_insert_eq. reflexivity.
  - intros k Hk. rewrite lookup_alter_ne, lookup_insert_ne by congruence.
    reflexivity.
  - reflexivity.
Qed.

Lemma new_server_serve_witness :
  is_ascii (or_default (Some "localhost") "0.0.0.0") = true
  /\ exists (self' : Self) (p1 : Proc),
       bind (init ServerClass None None)
            (fun s => serve s 5500 None (Some "localhost") None None false
                            (DelaySeconds 2) LoopReturned) Fixtures.proc0
       = (Return self', p1)
       /\ heap Fixtures.proc0 !! watcher self' = None
       /\ heap p1 !! watcher self'
          = Some (mkWatcher [] [(special_path, DelaySeconds 2)] ∅)
       /\ (forall r, r <> watcher self' ->
             heap p1 !! r = heap Fixtures.proc0 !! r)
       /\ LiveReloadHandler_watcher p1 = Some (watcher self').
Proof.
  split; [reflexivity|].
  exact (new_server_serve None 5500 None (Some "localhost") None None false
           (DelaySeconds 2) LoopReturned Fixtures.proc0 eq_refl).
Defined.

End ServerMore.
